(** * SmartRefactor vs. Tradicional: a model of [analysis_sr_vs_trad.py]

    The script is a single pass over two tables.  Its own code is glue:
    column renaming and coercion, boolean-mask selection, a left join, a
    normality-gated choice between two tests, an ordinal mapping and a
    guarded Kruskal-Wallis call.  The numerical routines it calls
    (pandas reductions, scipy.stats tests, Python's float parser) are
    taken as an interface, [Library]; everything the script itself does
    is defined below, over IEEE binary64 values in the executable
    [spec_float] representation. *)

From Stdlib Require Import ZArith String Ascii List Bool Lia.
From Stdlib Require Import Floats.SpecFloat.
From stdpp Require Import base option list strings gmap sorting.

Local Open Scope string_scope.
Local Open Scope Z_scope.

(** ** Python exceptions as an error monad *)

Inductive exn :=
  | KeyError (key : string)
  | ValueError (msg : string)
  | TypeError (msg : string)
  | AttributeError (msg : string)
  | MergeError (msg : string)
  | OSError (path : string).

Inductive result (A : Type) :=
  | Ok (a : A)
  | Raise (e : exn).
Arguments Ok {A} a.
Arguments Raise {A} e.

#[export] Instance result_ret : MRet result := @Ok.
#[export] Instance result_bind : MBind result := λ A B f m,
  match m with Ok a => f a | Raise e => Raise e end.
#[export] Instance result_fmap : FMap result := λ A B f m,
  match m with Ok a => Ok (f a) | Raise e => Raise e end.

(** ** binary64 *)

Module F64.
Definition prec : Z := 53.
Definition emax : Z := 1024.
Definition nan : spec_float := S754_nan.
Definition zero : spec_float := S754_zero false.
Definition add := SFadd prec emax.
Definition sub := SFsub prec emax.
Definition mul := SFmul prec emax.
Definition div := SFdiv prec emax.
Definition sqrt := SFsqrt prec emax.
Definition abs := SFabs.
Definition ltb := SFltb.
Definition leb := SFleb.
Definition eqb := SFeqb.
(** [x > y] as Python and NumPy evaluate it: false when either is NaN. *)
Definition gtb (x y : spec_float) : bool := SFltb y x.
(** conversion of a Python int *)
Definition of_Z (z : Z) : spec_float := binary_normalize prec emax z 0 false.
Definition is_nan (x : spec_float) : bool :=
  match x with S754_nan => true | _ => false end.
(** the sign bit; NaN carries none here *)
Definition signbit (x : spec_float) : bool :=
  match x with
  | S754_zero s | S754_infinity s | S754_finite s _ _ => s
  | S754_nan => false
  end.
(** the literal [0.05], 0x3FA999999999999A *)
Definition lit_0_05 : spec_float := S754_finite false 7205759403792794 (-57).
(** the literal [0.5] *)
Definition lit_0_5 : spec_float := S754_finite false 4503599627370496 (-53).
End F64.

Abbreviation float := spec_float.

#[export] Instance spec_float_eq_dec : EqDecision spec_float.
Proof. solve_decision. Defined.

(** ** Tables

    A pandas cell is a float (NaN stands for a missing value, as pandas
    has it) or a string of an object column.  A frame is its ordered list
    of labelled columns.  [read_csv] makes the labels of a file distinct,
    but a renaming can repeat one: a file with both "Ferramenta" and
    "ferramenta" has two columns "ferramenta" afterwards.  The loader and
    the column selection are therefore modelled on all the columns of a
    label ([columns_named]); the lookup [getcol], used past the loader,
    reads the first. *)

Inductive cell :=
  | CNum (x : float)
  | CStr (s : string).

#[export] Instance cell_eq_dec : EqDecision cell.
Proof. solve_decision. Defined.

Abbreviation Series := (list cell).
Abbreviation DataFrame := (list (string * Series)).

Definition CNull : cell := CNum F64.nan.

(** [pd.isna] on a cell *)
Definition isna (c : cell) : bool :=
  match c with CNum x => F64.is_nan x | CStr _ => false end.

(** [df[c]] as a Series: the column labelled [c], the first one should
    the label be repeated; a missing label raises [KeyError] *)
Fixpoint getcol (df : DataFrame) (c : string) : result Series :=
  match df with
  | [] => Raise (KeyError c)
  | (n, s) :: df' => if decide (n = c) then Ok s else getcol df' c
  end.

(** [df[c] = s]: overwrite the column in place, or append a new one *)
Fixpoint setcol (df : DataFrame) (c : string) (s : Series) : DataFrame :=
  match df with
  | [] => [(c, s)]
  | (n, s0) :: df' => if decide (n = c) then (n, s) :: df' else (n, s0) :: setcol df' c s
  end.

(** [df.rename(columns=mapping)]: labels outside the mapping are kept *)
Definition rename_label (mapping : list (string * string)) (n : string) : string :=
  match list_find (λ p, p.1 = n) mapping with
  | Some (_, (_, n')) => n'
  | None => n
  end.

Definition rename_columns (mapping : list (string * string)) (df : DataFrame) : DataFrame :=
  map (λ p, (rename_label mapping p.1, p.2)) df.

(** the columns of [df] that carry the label [c], in order *)
Definition columns_named (df : DataFrame) (c : string) : DataFrame :=
  filter (λ p, p.1 = c) df.

(** [df[c]] where the code goes on to treat it as a Series: when the
    label is repeated pandas hands back a DataFrame, and the call made on
    it next raises [err] *)
Definition getseries (df : DataFrame) (c : string) (err : exn) : result Series :=
  match columns_named df c with
  | [] => Raise (KeyError c)
  | [p] => Ok p.2
  | _ => Raise err
  end.

(** [df[[c1, ..., ck]]]: for each requested label in turn, every column
    that carries it *)
Definition select_columns (cols : list string) (df : DataFrame) : result DataFrame :=
  cs ← mapM (λ c, match columns_named df c with
                  | [] => Raise (KeyError c)
                  | ps => Ok ps
                  end) cols;
  mret (concat cs).

(** [s[mask]]: the entries of [s] at the positions where [mask] holds *)
Fixpoint select {A} (mask : list bool) (s : list A) : list A :=
  match mask, s with
  | b :: mask', x :: s' => if b then x :: select mask' s' else select mask' s'
  | _, _ => []
  end.

(** [df[mask]] *)
Definition filter_frame (mask : list bool) (df : DataFrame) : DataFrame :=
  map (λ p, (p.1, select mask p.2)) df.

(** [s == "label"] *)
Definition eq_str (label : string) (s : Series) : list bool :=
  map (λ c, bool_decide (c = CStr label)) s.

(** [str.replace(",", ".", regex=False)] *)
Fixpoint replace_comma (s : string) : string :=
  match s with
  | EmptyString => EmptyString
  | String a s' =>
      String (if Ascii.eqb a "," then "."%char else a) (replace_comma s')
  end.

(** ** The libraries the script calls *)

Class Library := {
  (** Python: [str(x)] of a float, [str.strip], [float(s)], [x ** y],
      NumPy's [round(x, ndigits)] *)
  float_repr : float → string;
  str_strip : string → string;
  float_of_str : string → option float;
  py_pow : float → float → float;
  np_round : float → Z → float;
  (** pandas: the string parser of [pd.to_numeric], [Series.mean],
      [Series.var(ddof)], the group-by kernels [mean] and [std], and
      [pd.read_csv] *)
  to_numeric_str : string → option float;
  Series_mean : Series → result float;
  Series_var : Series → Z → result float;
  agg_mean : Series → result float;
  agg_std : Series → result float;
  read_csv : string → result DataFrame;
  (** scipy.stats: [shapiro(x).pvalue], [ttest_ind(x, y, equal_var)],
      [mannwhitneyu(x, y, alternative)], [norm.isf], [spearmanr] on
      NaN-free paired samples, [kruskal] *)
  shapiro_pvalue : Series → result float;
  ttest_ind : Series → Series → bool → result (float * float);
  mannwhitneyu : Series → Series → string → result (float * float);
  norm_isf : float → float;
  spearmanr_pairs : list (float * float) → result (float * float);
  kruskal : list Series → result (float * float);
}.

(** ** [load_metrics] *)

Section LoadMetrics.
Context `{Library}.

(** [astype(str)] on one cell *)
Definition cell_str (c : cell) : string :=
  match c with CNum x => float_repr x | CStr s => s end.

(** [.astype(str).str.strip().str.replace(",", ".").astype(float)] on
    one cell: [None] is the [ValueError] of [float()] *)
Definition parse_decimal_comma (c : cell) : option float :=
  float_of_str (replace_comma (str_strip (cell_str c))).

Definition astype_float_strict (s : Series) : result Series :=
  mapM (λ c, match parse_decimal_comma c with
             | Some x => Ok (CNum x)
             | None => Raise (ValueError "could not convert string to float")
             end) s.

(** [pd.to_numeric(s, errors="coerce")] *)
Definition to_numeric_cell (c : cell) : option float :=
  match c with CNum x => Some x | CStr s => to_numeric_str s end.

Definition to_numeric_coerce (s : Series) : Series :=
  map (λ c, CNum (default F64.nan (to_numeric_cell c))) s.

Definition metrics_rename : list (string * string) :=
  [("Tempo (h)", "tempo_h"); ("LOC Modificadas", "loc_mod");
   ("Erros Funcionais", "erros"); ("Problemas de Design", "design");
   ("Ferramenta", "ferramenta")].

Definition coerce_strict (df : DataFrame) (col : string) : result DataFrame :=
  s ← getseries df col (AttributeError "'DataFrame' object has no attribute 'str'");
  s' ← astype_float_strict s;
  mret (setcol df col s').

Definition coerce_lenient (df : DataFrame) (col : string) : result DataFrame :=
  s ← getseries df col (TypeError "arg must be a list, tuple, 1-d array, or Series");
  mret (setcol df col (to_numeric_coerce s)).

Definition load_metrics_frame (df_raw : DataFrame) : result DataFrame :=
  let df := rename_columns metrics_rename df_raw in
  df ← coerce_strict df "tempo_h";
  df ← coerce_strict df "loc_mod";
  df ← coerce_lenient df "erros";
  df ← coerce_lenient df "design";
  select_columns ["ID"; "tempo_h"; "erros"; "design"; "ferramenta"] df.

Definition load_metrics (csv_path : string) : result DataFrame :=
  df_raw ← read_csv csv_path; load_metrics_frame df_raw.

Definition profile_rename : list (string * string) :=
  [("Formacao", "formacao"); ("Experiencia", "experiencia");
   ("Conhecimento_Refatoracao", "kn_ref"); ("Conhecimento_Java", "kn_java")].

Definition load_profile (csv_path : string) : result DataFrame :=
  df ← read_csv csv_path; mret (rename_columns profile_rename df).
End LoadMetrics.

(** ** [pd.merge(left, right, on=key, how="left")]

    Keys are compared as pandas hashes them: the two zeros are one key
    and a missing key matches a missing key.  A numeric key column
    against an object one is refused with [ValueError], unless one of
    the two is empty.  Labels other than the key that occur on both sides
    get the suffixes [_x], [_y]; a suffixed label that repeats a label of
    its own side is refused with [MergeError]. *)

Definition merge_key (c : cell) : cell :=
  match c with
  | CNum (S754_zero _) => CNum F64.zero
  | _ => c
  end.

Definition is_num (c : cell) : bool :=
  match c with CNum _ => true | CStr _ => false end.

(** positions of [kr] whose key equals [k], in order, counted from [j0] *)
Fixpoint key_matches (k : cell) (kr : list cell) (j0 : nat) : list nat :=
  match kr with
  | [] => []
  | k' :: kr' =>
      if decide (merge_key k' = merge_key k)
      then j0 :: key_matches k kr' (S j0)
      else key_matches k kr' (S j0)
  end.

(** the row pairs of the left join: every left row, in order, with each
    matching right row, or with none *)
Fixpoint join_index (kl kr : list cell) (i0 : nat) : list (nat * option nat) :=
  match kl with
  | [] => []
  | k :: kl' =>
      (match key_matches k kr 0 with
       | [] => [(i0, None)]
       | js => map (λ j, (i0, Some j)) js
       end ++ join_index kl' kr (S i0))%list
  end.

Definition take_left (idx : list (nat * option nat)) (s : Series) : Series :=
  map (λ p, default CNull (s !! p.1)) idx.

Definition take_right (idx : list (nat * option nat)) (s : Series) : Series :=
  map (λ p, match p.2 with
            | Some j => default CNull (s !! j)
            | None => CNull
            end) idx.

Definition labels (df : DataFrame) : list string := map fst df.

Definition suffixed (on : string) (other : DataFrame) (sfx n : string) : string :=
  if decide (n ≠ on ∧ n ∈ labels other) then n ++ sfx else n.

(** the dtype check on the two key columns; it is skipped when either
    is empty *)
Definition keys_comparable (kl kr : Series) : bool :=
  match kl, kr with
  | [], _ | _, [] => true
  | _, _ => eqb (forallb is_num kl) (forallb is_num kr)
  end.

(** [Index.duplicated()]: whether each label has occurred before *)
Fixpoint duplicated (seen l : list string) : list bool :=
  match l with
  | [] => []
  | n :: l' => bool_decide (n ∈ seen) :: duplicated (n :: seen) l'
  end.

(** some label repeats after suffixing that did not before *)
Definition suffix_clash (old new : list string) : bool :=
  existsb (λ b, b.1 && negb b.2) (zip (duplicated [] new) (duplicated [] old)).

Definition merge_left (left right : DataFrame) (on : string) : result DataFrame :=
  kl ← getcol left on;
  kr ← getcol right on;
  if negb (keys_comparable kl kr)
  then Raise (ValueError "You are trying to merge on object and float64 columns")
  else
    let others := filter (λ p, p.1 ≠ on) right in
    if suffix_clash (labels left) (map (suffixed on right "_x") (labels left))
       || suffix_clash (labels others) (map (suffixed on left "_y") (labels others))
    then Raise (MergeError "Passing 'suffixes' which cause duplicate columns is not allowed.")
    else
      let idx := join_index kl kr 0 in
      mret (map (λ p, (suffixed on right "_x" p.1, take_left idx p.2)) left ++
            map (λ p, (suffixed on left "_y" p.1, take_right idx p.2)) others)%list.

(** ** [groupby] *)

(** numbers sort before strings, numbers by value, strings by code point *)
Definition cell_le (a b : cell) : Prop :=
  match a, b with
  | CNum x, CNum y => F64.leb x y = true
  | CNum _, CStr _ => True
  | CStr _, CNum _ => False
  | CStr s, CStr t => String.leb s t = true
  end.

#[export] Instance cell_le_dec : RelDecision cell_le.
Proof. intros [x|s] [y|t]; simpl; apply _. Defined.

(** the group keys of [df.groupby(col)]: the distinct non-null values,
    sorted *)
Definition group_keys (s : Series) : list cell :=
  merge_sort cell_le (remove_dups (map merge_key (filter (λ c, isna c = false) s))).

Definition group_mask (k : cell) (s : Series) : list bool :=
  map (λ c, bool_decide (merge_key c = k)) s.

(** [Series.count()] *)
Definition count_nonnull (s : Series) : nat :=
  length (filter (λ c, isna c = false) s).

(** ** [descriptive_stats] *)

Record desc_row := {
  d_ferramenta : cell;
  d_n : nat;
  d_tempo_medio : float;
  d_tempo_dp : float;
  d_erros_medio : float;
  d_erros_dp : float;
  d_design_medio : float;
  d_design_dp : float;
}.

Section DescriptiveStats.
Context `{Library}.

Definition describe_group (tools tempo erros design : Series) (k : cell)
  : result desc_row :=
  let m := group_mask k tools in
  tm ← agg_mean (select m tempo);
  ts ← agg_std (select m tempo);
  em ← agg_mean (select m erros);
  es ← agg_std (select m erros);
  dm ← agg_mean (select m design);
  ds ← agg_std (select m design);
  mret {| d_ferramenta := k;
          d_n := count_nonnull (select m tempo);
          d_tempo_medio := np_round tm 3;
          d_tempo_dp := np_round ts 3;
          d_erros_medio := np_round em 3;
          d_erros_dp := np_round es 3;
          d_design_medio := np_round dm 3;
          d_design_dp := np_round ds 3 |}.

Definition descriptive_stats (df : DataFrame) : result (list desc_row) :=
  tools ← getcol df "ferramenta";
  tempo ← getcol df "tempo_h";
  erros ← getcol df "erros";
  design ← getcol df "design";
  mapM (describe_group tools tempo erros design) (group_keys tools).
End DescriptiveStats.

(** ** [hypothesis_tests] *)

Record hyp_row := {
  h_metrica : string;
  h_teste : string;
  h_estatistica : float;
  h_p_valor : float;
  h_normal : bool;
  h_efeito : float;
}.

(** [math.sqrt]: a negative argument raises, NaN and the zeros pass *)
Definition math_sqrt (x : float) : result float :=
  if F64.ltb x F64.zero then Raise (ValueError "math domain error")
  else Ok (F64.sqrt x).

Definition metric_labels : list (string * string) :=
  [("tempo_h", "Tempo (h)"); ("erros", "Erros Funcionais");
   ("design", "Problemas de Design")].

(** [df[df["ferramenta"] == tool][metric]] *)
Definition tool_group (df : DataFrame) (tool metric : string) : result Series :=
  tools ← getcol df "ferramenta";
  getcol (filter_frame (eq_str tool tools) df) metric.

(** the rows whose tool is one of the two compared labels *)
Definition compared_rows (tools : Series) : list bool :=
  map (λ c, bool_decide (c = CStr "SmartRefactor" ∨ c = CStr "Tradicional")) tools.

Section HypothesisTests.
Context `{Library}.

Definition welch_effect (grp_smart grp_trad : Series) : result float :=
  m1 ← Series_mean grp_smart;
  m2 ← Series_mean grp_trad;
  v1 ← Series_var grp_smart 1;
  v2 ← Series_var grp_trad 1;
  sd ← math_sqrt (F64.div (F64.add v1 v2) (F64.of_Z 2));
  mret (F64.div (F64.abs (F64.sub m1 m2)) sd).

Definition mw_effect (grp_smart grp_trad : Series) (pval : float) : float :=
  let z := norm_isf (F64.div pval (F64.of_Z 2)) in
  F64.div (F64.abs z)
          (py_pow (F64.of_Z (Z.of_nat (length grp_smart + length grp_trad)))
                  F64.lit_0_5).

Definition is_normal (p_smart p_trad : float) : bool :=
  F64.gtb p_smart F64.lit_0_05 && F64.gtb p_trad F64.lit_0_05.

Definition hypothesis_row (df : DataFrame) (ml : string * string)
  : result hyp_row :=
  let '(metric, label) := ml in
  grp_smart ← tool_group df "SmartRefactor" metric;
  grp_trad ← tool_group df "Tradicional" metric;
  p_smart ← shapiro_pvalue grp_smart;
  p_trad ← shapiro_pvalue grp_trad;
  let normal := is_normal p_smart p_trad in
  if normal then
    '(stat, pval) ← ttest_ind grp_smart grp_trad false;
    effect ← welch_effect grp_smart grp_trad;
    mret {| h_metrica := label; h_teste := "t (Welch)";
            h_estatistica := np_round stat 3; h_p_valor := np_round pval 5;
            h_normal := normal; h_efeito := np_round effect 3 |}
  else
    '(stat, pval) ← mannwhitneyu grp_smart grp_trad "two-sided";
    let effect := mw_effect grp_smart grp_trad pval in
    mret {| h_metrica := label; h_teste := "Mann–Whitney";
            h_estatistica := np_round stat 3; h_p_valor := np_round pval 5;
            h_normal := normal; h_efeito := np_round effect 3 |}.

Definition hypothesis_tests (df : DataFrame) : result (list hyp_row) :=
  mapM (hypothesis_row df) metric_labels.
End HypothesisTests.

(** ** [profile_descriptive] *)

(** [Series.value_counts()]: the distinct non-null values with their
    counts, most frequent first *)
Definition count_occ_cell (s : Series) (k : cell) : nat :=
  length (filter (λ c, c = k) s).

Definition more_frequent (a b : cell * nat) : Prop := (b.2 ≤ a.2)%nat.

#[export] Instance more_frequent_dec : RelDecision more_frequent.
Proof. intros a b; unfold more_frequent; apply _. Defined.

Definition value_counts (s : Series) : list (cell * nat) :=
  let vals := filter (λ c, isna c = false) s in
  merge_sort more_frequent
             (map (λ k, (k, count_occ_cell vals k)) (remove_dups vals)).

Definition profile_columns : list string :=
  ["formacao"; "experiencia"; "kn_ref"; "kn_java"].

Definition profile_descriptive (df_profile : DataFrame)
  : result (list (string * list (cell * nat))) :=
  mapM (λ col, s ← getcol df_profile col; mret (col, value_counts s))
       profile_columns.

(** ** [map_ordinal] and [profile_influence] *)

(** [{cat: idx for idx, cat in enumerate(order)}]: a later entry
    overwrites an earlier one with the same key *)
Fixpoint ordinal_dict_from (order : list string) (idx : nat)
    (d : gmap string nat) : gmap string nat :=
  match order with
  | [] => d
  | cat :: order' => ordinal_dict_from order' (S idx) (<[cat := idx]> d)
  end.

Definition ordinal_dict (order : list string) : gmap string nat :=
  ordinal_dict_from order 0 ∅.

(** [series.map(d).astype(float)]: what the dict does not hold is NaN *)
Definition map_cell (d : gmap string nat) (c : cell) : cell :=
  match c with
  | CStr s =>
      match d !! s with
      | Some i => CNum (F64.of_Z (Z.of_nat i))
      | None => CNull
      end
  | CNum _ => CNull
  end.

Definition map_ordinal (series : Series) (order : list string) : Series :=
  map (map_cell (ordinal_dict order)) series.

(** whether a cell holds one of the categories of [order] *)
Definition known_category (order : list string) (c : cell) : bool :=
  match c with
  | CStr cat => bool_decide (cat ∈ order)
  | CNum _ => false
  end.

Record inf_row := {
  i_variavel : string;
  i_metrica : string;
  i_teste : string;
  i_coeficiente : float;
  i_p_valor : float;
}.

(** the three labels of a result row *)
Definition row_key (r : inf_row) : string * string * string :=
  (i_variavel r, i_metrica r, i_teste r).

Definition exp_order : list string := ["0-1 anos"; "1-2 anos"; "3-5 anos"; "6+ anos"].
Definition kn_order : list string := ["Nenhum"; "Básico"; "Razoável"; "Avançado"].

Definition ordinal_labels : list (string * string) :=
  [("exp_num", "Experiência"); ("kn_ref_num", "Conhecimento Refatoração");
   ("kn_java_num", "Conhecimento Java")].
Definition influence_metrics : list (string * string) :=
  [("erros", "Erros"); ("design", "Design")].

(** the conversion of a column to a float array on entry to SciPy *)
Definition as_floats (s : Series) : result (list float) :=
  mapM (λ c, match c with
             | CNum x => Ok x
             | CStr _ => Raise (TypeError "could not convert string to float")
             end) s.

(** the pairs [nan_policy="omit"] keeps: those with no NaN on either side *)
Definition omit_nan (ps : list (float * float)) : list (float * float) :=
  filter (λ p, F64.is_nan p.1 = false ∧ F64.is_nan p.2 = false) ps.

(** [Series.dropna()] *)
Definition dropna (s : Series) : Series := filter (λ c, isna c = false) s.

(** the number of rows (the length of the index) and [DataFrame.empty] *)
Definition nrows (df : DataFrame) : nat :=
  match df with [] => 0%nat | (_, s) :: _ => length s end.

Definition frame_empty (df : DataFrame) : bool :=
  bool_decide (df = []) || bool_decide (nrows df = 0%nat).

(** every column of a frame has one entry per row *)
Definition frame_wf (df : DataFrame) : Prop :=
  ∃ n, Forall (λ p, length p.2 = n) df.

(** the levels of [levels] that some row of the column [e] has *)
Definition present_levels (e : Series) (levels : list string) : list string :=
  filter (λ lvl, CStr lvl ∈ e) levels.

(** [[df[df["experiencia"]==lvl][metric].dropna() for lvl in levels
      if not df[df["experiencia"]==lvl].empty]] *)
Fixpoint level_groups (df : DataFrame) (metric : string) (levels : list string)
  : result (list Series) :=
  match levels with
  | [] => Ok []
  | lvl :: levels' =>
      e ← getcol df "experiencia";
      let sub := filter_frame (eq_str lvl e) df in
      if frame_empty sub then level_groups df metric levels'
      else
        e' ← getcol df "experiencia";
        g ← getcol (filter_frame (eq_str lvl e') df) metric;
        gs ← level_groups df metric levels';
        mret (dropna g :: gs)
  end.

Section ProfileInfluence.
Context `{Library}.

(** [stats.spearmanr(x, y, nan_policy="omit")] *)
Definition spearmanr_omit (x y : Series) : result (float * float) :=
  xs ← as_floats x;
  ys ← as_floats y;
  if bool_decide (length xs = length ys)
  then spearmanr_pairs (omit_nan (zip xs ys))
  else Raise (ValueError "all the input array dimensions must match").

Definition spearman_row (df : DataFrame) (ol ml : string * string)
  : result inf_row :=
  x ← getcol df ol.1;
  y ← getcol df ml.1;
  '(coef, pval) ← spearmanr_omit x y;
  mret {| i_variavel := ol.2; i_metrica := ml.2; i_teste := "Spearman ρ";
          i_coeficiente := np_round coef 3; i_p_valor := np_round pval 5 |}.

Definition spearman_rows (df : DataFrame) : result (list inf_row) :=
  mapM (λ om, spearman_row df om.1 om.2)
       (ol ← ordinal_labels; ml ← influence_metrics; [(ol, ml)]).

Definition kruskal_rows_for (df : DataFrame) (ml : string * string)
  : result (list inf_row) :=
  groups ← level_groups df ml.1 exp_order;
  if bool_decide (2 ≤ length groups)%nat then
    '(stat, pval) ← kruskal groups;
    mret [{| i_variavel := "Experiência (categorias)"; i_metrica := ml.2;
             i_teste := "Kruskal‑Wallis";
             i_coeficiente := np_round stat 3; i_p_valor := np_round pval 5 |}]
  else mret [].

Definition add_ordinal (df : DataFrame) (src dst : string) (order : list string)
  : result DataFrame :=
  s ← getcol df src; mret (setcol df dst (map_ordinal s order)).

(** returns the frame as the in-place column assignments leave it,
    with the result table *)
Definition profile_influence (df : DataFrame)
  : result (DataFrame * list inf_row) :=
  df ← add_ordinal df "experiencia" "exp_num" exp_order;
  df ← add_ordinal df "kn_ref" "kn_ref_num" kn_order;
  df ← add_ordinal df "kn_java" "kn_java_num" kn_order;
  sp ← spearman_rows df;
  kw ← mapM (kruskal_rows_for df) influence_metrics;
  mret (df, (sp ++ concat kw)%list).
End ProfileInfluence.

(** ** The file system and standard output *)

Abbreviation path := (list string).

Inductive event :=
  | Wrote (p : path)
  | Printed (msg : string).

Record world := {
  w_dirs : gset path;
  w_files : gset path;
  w_log : list event;
}.

Record IO (A : Type) := MkIO { run : world → result A * world }.
Arguments MkIO {A} run.
Arguments run {A} _ _.

#[export] Instance io_ret : MRet IO := λ A a, MkIO (λ w, (Ok a, w)).
#[export] Instance io_bind : MBind IO := λ A B f m,
  MkIO (λ w, match run m w with
             | (Ok a, w') => run (f a) w'
             | (Raise e, w') => (Raise e, w')
             end).

Definition lift {A} (r : result A) : IO A := MkIO (λ w, (r, w)).

Definition path_str (p : path) : string := String.concat "/" p.

(** [Path.mkdir(parents=True, exist_ok=True)] *)
Definition mkdir_p (p : path) : IO unit :=
  MkIO (λ w,
    if decide (p ∈ w_files w) then (Raise (OSError (path_str p)), w)
    else (Ok (), {| w_dirs := {[p]} ∪ w_dirs w; w_files := w_files w;
                    w_log := w_log w |})).

(** creating or overwriting the file [p]; its directory must exist *)
Definition write_file (p : path) : IO unit :=
  MkIO (λ w,
    if decide (removelast p ∈ w_dirs w ∧ p ∉ w_dirs w)
    then (Ok (), {| w_dirs := w_dirs w; w_files := {[p]} ∪ w_files w;
                    w_log := (w_log w ++ [Wrote p])%list |})
    else (Raise (OSError (path_str p)), w)).

Definition print (msg : string) (p : path) : IO unit :=
  MkIO (λ w, (Ok (), {| w_dirs := w_dirs w; w_files := w_files w;
                        w_log := (w_log w ++ [Printed (msg ++ " " ++ path_str p)])%list |})).

Definition metrics_csv : string := "coleta.csv".
Definition profile_csv : string := "perfil_dos_participantes.csv".
Definition out_dir : path := ["results"].

(** [out_dir / name] *)
Definition in_out_dir (name : string) : path := (out_dir ++ [name])%list.

(** the paths written so far, in order *)
Definition writes (log : list event) : list path :=
  omap (λ e, match e with Wrote p => Some p | Printed _ => None end) log.

(** [m], from any world and whether it completes or raises, creates or
    overwrites a prefix of the files [ps], in order, and all of them when
    it completes; it removes no directory *)
Definition emits {A} (m : IO A) (ps : list path) : Prop :=
  ∀ w r w', run m w = (r, w') →
    w_dirs w ⊆ w_dirs w' ∧
    ∃ qs, writes (w_log w') = (writes (w_log w) ++ qs)%list ∧
          qs `prefix_of` ps ∧ (∀ a, r = Ok a → qs = ps).

Section Main.
Context `{Library}.

(** one figure: [df.boxplot(column=metric, by="ferramenta")] needs both
    columns, [plt.savefig] writes the image *)
Definition create_boxplot (df : DataFrame) (ml : string * string) : IO unit :=
  _ ← lift (getcol df ml.1);
  _ ← lift (getcol df "ferramenta");
  write_file (in_out_dir ("boxplot_" ++ ml.1 ++ ".png")).

Fixpoint create_boxplots_over (df : DataFrame) (mls : list (string * string))
  : IO unit :=
  match mls with
  | [] => mret ()
  | ml :: mls' => create_boxplot df ml;; create_boxplots_over df mls'
  end.

Definition create_boxplots (df : DataFrame) : IO unit :=
  create_boxplots_over df metric_labels.

Definition main : IO unit :=
  df_metrics ← lift (load_metrics metrics_csv);
  df_profile ← lift (load_profile profile_csv);
  df ← lift (merge_left df_metrics df_profile "ID");
  desc ← lift (descriptive_stats df);
  write_file (in_out_dir "descriptive_stats.csv");;
  print "Descritiva salva em" (in_out_dir "descriptive_stats.csv");;
  htest ← lift (hypothesis_tests df);
  write_file (in_out_dir "hypothesis_results.csv");;
  print "Hipóteses salvas em" (in_out_dir "hypothesis_results.csv");;
  pdesc ← lift (profile_descriptive df_profile);
  write_file (in_out_dir "profile_stats.csv");;
  print "Perfil descritivo salvo em" (in_out_dir "profile_stats.csv");;
  pinf ← lift (profile_influence df);
  write_file (in_out_dir "profile_influence.csv");;
  print "Influencia de perfil salva em" (in_out_dir "profile_influence.csv");;
  create_boxplots pinf.1;;
  print "Boxplots gerados em" out_dir.

(** the module body, then [main()] *)
Definition script : IO unit := mkdir_p out_dir;; main.
End Main.

(** ** An executable instance of [Library]

    Small stand-ins for the library routines, so that the model can be
    run on concrete tables: a decimal parser, NumPy's
    multiply-round-divide rounding, left-to-right mean and variance that
    skip missing values, and test routines that agree with SciPy on the
    degenerate inputs (a sample shorter than three, a NaN, a sample of
    range zero) and return fixed values elsewhere. *)

Module Demo.
Definition is_space (a : ascii) : bool :=
  Ascii.eqb a " " || Ascii.eqb a "009" || Ascii.eqb a "010" || Ascii.eqb a "013".

Fixpoint lstrip (l : list ascii) : list ascii :=
  match l with
  | a :: l' => if is_space a then lstrip l' else l
  | [] => []
  end.

Definition strip (s : string) : string :=
  string_of_list_ascii
    (rev (lstrip (rev (lstrip (list_ascii_of_string s))))).

Definition digit (a : ascii) : option Z :=
  let n := Z.of_nat (nat_of_ascii a) in
  if (48 <=? n) && (n <=? 57) then Some (n - 48) else None.

(** digits with at most one point: the integer they spell and the power
    of ten to divide it by *)
Fixpoint decimal (s : string) (acc scale : Z) (dot : bool) : option (Z * Z) :=
  match s with
  | EmptyString => Some (acc, scale)
  | String a s' =>
      match digit a with
      | Some d => decimal s' (10 * acc + d) (if dot then 10 * scale else scale) dot
      | None =>
          if Ascii.eqb a "." && negb dot then decimal s' acc scale true else None
      end
  end.

Definition parse (s : string) : option float :=
  if String.eqb s "nan" then Some F64.nan
  else if String.eqb s "" then None
  else match decimal s 0 1 false with
       | Some (m, sc) => Some (F64.div (F64.of_Z m) (F64.of_Z sc))
       | None => None
       end.

Definition repr (x : float) : string :=
  match x with
  | S754_nan => "nan"
  | S754_zero false => "0.0"
  | S754_zero true => "-0.0"
  | S754_infinity false => "inf"
  | S754_infinity true => "-inf"
  | S754_finite _ _ _ => "?"
  end.

(** round to the nearest integer, ties to even *)
Definition rint (x : float) : float :=
  match x with
  | S754_finite s m e =>
      if 0 <=? e then x
      else
        let d := 2 ^ (- e) in
        let q := Z.pos m / d in
        let r := Z.pos m mod d in
        let n := if 2 * r <? d then q
                 else if d <? 2 * r then q + 1
                 else if Z.even q then q else q + 1 in
        binary_normalize F64.prec F64.emax (if s then - n else n) 0 s
  | _ => x
  end.

Definition round (x : float) (ndigits : Z) : float :=
  let p := F64.of_Z (10 ^ ndigits) in
  F64.div (rint (F64.mul x p)) p.

Definition pow (x y : float) : float :=
  if decide (y = F64.lit_0_5) then F64.sqrt x else F64.nan.

Definition values (s : Series) : result (list float) :=
  xs ← as_floats s; mret (filter (λ x, F64.is_nan x = false) xs).

Definition fsum (xs : list float) : float := foldl F64.add F64.zero xs.

Definition mean_of (xs : list float) : float :=
  match xs with
  | [] => F64.nan
  | _ => F64.div (fsum xs) (F64.of_Z (Z.of_nat (length xs)))
  end.

Definition var_of (xs : list float) (ddof : Z) : float :=
  if Z.of_nat (length xs) <=? ddof then F64.nan
  else
    let m := mean_of xs in
    F64.div (fsum (map (λ x, F64.mul (F64.sub x m) (F64.sub x m)) xs))
            (F64.of_Z (Z.of_nat (length xs) - ddof)).

Definition mean (s : Series) : result float := xs ← values s; mret (mean_of xs).
Definition var (s : Series) (ddof : Z) : result float :=
  xs ← values s; mret (var_of xs ddof).
Definition std (s : Series) : result float :=
  xs ← values s; mret (F64.sqrt (var_of xs 1)).

Definition one : float := F64.of_Z 1.

Definition constant (xs : list float) : bool :=
  match xs with
  | [] => true
  | x :: xs' => forallb (F64.eqb x) xs'
  end.

Definition shapiro (s : Series) : result float :=
  xs ← as_floats s;
  if (length xs <? 3)%nat then Raise (ValueError "Data must be at least length 3.")
  else if existsb F64.is_nan xs then Ok F64.nan
  else if constant xs then Ok one
  else Ok (S754_finite false 5764607523034235 (-59)).

Definition two_sample (x y : Series) : result (float * float) :=
  xs ← as_floats x;
  ys ← as_floats y;
  if existsb F64.is_nan xs || existsb F64.is_nan ys then Ok (F64.nan, F64.nan)
  else Ok (F64.sub (mean_of xs) (mean_of ys), F64.lit_0_5).

Definition isf (p : float) : float :=
  if F64.ltb p F64.zero || F64.ltb one p then F64.nan
  else F64.sub F64.lit_0_5 p.

Definition tables (csv : string) : result DataFrame :=
  if String.eqb csv "coleta.csv" then
    Ok [("ID", [CStr "P1"; CStr "P2"; CStr "P3"; CStr "P4"; CStr "P5"; CStr "P6"]);
        ("Ferramenta", [CStr "SmartRefactor"; CStr "SmartRefactor"; CStr "SmartRefactor";
                        CStr "Tradicional"; CStr "Tradicional"; CStr "Tradicional"]);
        ("Tempo (h)", [CStr "1,5"; CStr "2,0"; CStr "1,0";
                       CStr "3,5"; CStr "2,5"; CStr " 4,0"]);
        ("LOC Modificadas", [CStr "120"; CStr "80"; CStr "95";
                             CStr "60"; CStr "75"; CStr "50"]);
        ("Erros Funcionais", [CStr "0"; CStr "1"; CStr "0"; CStr "2"; CStr "3"; CStr "n/d"]);
        ("Problemas de Design", [CStr "1"; CStr "1"; CStr "1"; CStr "1"; CStr "1"; CStr "1"])]
  else if String.eqb csv "perfil_dos_participantes.csv" then
    Ok [("ID", [CStr "P1"; CStr "P2"; CStr "P3"; CStr "P4"; CStr "P5"]);
        ("Formacao", [CStr "Graduação"; CStr "Mestrado"; CStr "Graduação";
                      CStr "Graduação"; CStr "Doutorado"]);
        ("Experiencia", [CStr "0-1 anos"; CStr "3-5 anos"; CStr "3-5 anos";
                         CStr "6+ anos"; CStr "1-2 anos"]);
        ("Conhecimento_Refatoracao", [CStr "Básico"; CStr "Razoável"; CStr "Nenhum";
                                      CStr "Avançado"; CStr "Básico"]);
        ("Conhecimento_Java", [CStr "Razoável"; CStr "Avançado"; CStr "Básico";
                               CStr "Avançado"; CStr "Intermediário"])]
  else Raise (OSError csv).

Definition library : Library := {|
  float_repr := repr;
  str_strip := strip;
  float_of_str := parse;
  py_pow := pow;
  np_round := round;
  to_numeric_str := parse;
  Series_mean := mean;
  Series_var := var;
  agg_mean := mean;
  agg_std := std;
  read_csv := tables;
  shapiro_pvalue := shapiro;
  ttest_ind := λ x y _, two_sample x y;
  mannwhitneyu := λ x y _, two_sample x y;
  norm_isf := isf;
  spearmanr_pairs := λ ps, Ok (F64.zero, one);
  kruskal := λ gs,
    if (length gs <? 2)%nat
    then Raise (ValueError "Need at least two groups in stats.kruskal()")
    else Ok (F64.zero, one);
|}.

(** tables with two participants per tool, too few for the normality
    test *)
Definition short_tables (csv : string) : result DataFrame :=
  if String.eqb csv "coleta.csv" then
    Ok [("ID", [CStr "P1"; CStr "P2"; CStr "P3"; CStr "P4"]);
        ("Ferramenta", [CStr "SmartRefactor"; CStr "SmartRefactor";
                        CStr "Tradicional"; CStr "Tradicional"]);
        ("Tempo (h)", [CStr "1,5"; CStr "2,0"; CStr "3,5"; CStr "2,5"]);
        ("LOC Modificadas", [CStr "120"; CStr "80"; CStr "60"; CStr "75"]);
        ("Erros Funcionais", [CStr "0"; CStr "1"; CStr "2"; CStr "3"]);
        ("Problemas de Design", [CStr "1"; CStr "0"; CStr "2"; CStr "1"])]
  else if String.eqb csv "perfil_dos_participantes.csv" then
    Ok [("ID", [CStr "P1"; CStr "P2"; CStr "P3"; CStr "P4"]);
        ("Formacao", [CStr "Graduação"; CStr "Mestrado"; CStr "Graduação";
                      CStr "Graduação"]);
        ("Experiencia", [CStr "0-1 anos"; CStr "3-5 anos"; CStr "3-5 anos";
                         CStr "6+ anos"]);
        ("Conhecimento_Refatoracao", [CStr "Básico"; CStr "Razoável"; CStr "Nenhum";
                                      CStr "Avançado"]);
        ("Conhecimento_Java", [CStr "Razoável"; CStr "Avançado"; CStr "Básico";
                               CStr "Avançado"])]
  else Raise (OSError csv).

(** the same routines, reading the short tables *)
Definition short_library : Library := {|
  float_repr := repr;
  str_strip := strip;
  float_of_str := parse;
  py_pow := pow;
  np_round := round;
  to_numeric_str := parse;
  Series_mean := mean;
  Series_var := var;
  agg_mean := mean;
  agg_std := std;
  read_csv := short_tables;
  shapiro_pvalue := shapiro;
  ttest_ind := λ x y _, two_sample x y;
  mannwhitneyu := λ x y _, two_sample x y;
  norm_isf := isf;
  spearmanr_pairs := λ ps, Ok (F64.zero, one);
  kruskal := @kruskal library;
|}.

(** a metrics table whose second time is not a number *)
Definition bad_time_tables (csv : string) : result DataFrame :=
  if String.eqb csv "coleta.csv" then
    Ok [("ID", [CStr "P1"; CStr "P2"]);
        ("Ferramenta", [CStr "SmartRefactor"; CStr "Tradicional"]);
        ("Tempo (h)", [CStr "1,5"; CStr "1h30"]);
        ("LOC Modificadas", [CStr "120"; CStr "80"]);
        ("Erros Funcionais", [CStr "0"; CStr "1"]);
        ("Problemas de Design", [CStr "1"; CStr "0"])]
  else short_tables csv.

Definition bad_time_library : Library := {|
  float_repr := repr;
  str_strip := strip;
  float_of_str := parse;
  py_pow := pow;
  np_round := round;
  to_numeric_str := parse;
  Series_mean := mean;
  Series_var := var;
  agg_mean := mean;
  agg_std := std;
  read_csv := bad_time_tables;
  shapiro_pvalue := shapiro;
  ttest_ind := λ x y _, two_sample x y;
  mannwhitneyu := λ x y _, two_sample x y;
  norm_isf := isf;
  spearmanr_pairs := λ ps, Ok (F64.zero, one);
  kruskal := @kruskal library;
|}.

(** a joined table: three rows per compared tool, one of a third tool,
    a missing error count, the same design count everywhere, a participant
    without profile *)
Definition sample : DataFrame :=
  [("ID", [CStr "P1"; CStr "P2"; CStr "P3"; CStr "P4"; CStr "P5"; CStr "P6"; CStr "P7"]);
   ("tempo_h", [CNum (F64.div (F64.of_Z 3) (F64.of_Z 2)); CNum (F64.of_Z 2);
                CNum (F64.of_Z 1); CNum (F64.div (F64.of_Z 7) (F64.of_Z 2));
                CNum (F64.div (F64.of_Z 5) (F64.of_Z 2)); CNum (F64.of_Z 4);
                CNum (F64.of_Z 9)]);
   ("erros", [CNum (F64.of_Z 0); CNum (F64.of_Z 1); CNum (F64.of_Z 0);
              CNum (F64.of_Z 2); CNum (F64.of_Z 3); CNull; CNum (F64.of_Z 5)]);
   ("design", [CNum (F64.of_Z 1); CNum (F64.of_Z 1); CNum (F64.of_Z 1);
               CNum (F64.of_Z 1); CNum (F64.of_Z 1); CNum (F64.of_Z 1);
               CNum (F64.of_Z 8)]);
   ("ferramenta", [CStr "SmartRefactor"; CStr "SmartRefactor"; CStr "SmartRefactor";
                   CStr "Tradicional"; CStr "Tradicional"; CStr "Tradicional";
                   CStr "Eclipse"]);
   ("formacao", [CStr "Graduação"; CStr "Mestrado"; CStr "Graduação";
                 CStr "Graduação"; CStr "Doutorado"; CNull; CStr "Mestrado"]);
   ("experiencia", [CStr "0-1 anos"; CStr "3-5 anos"; CStr "3-5 anos";
                    CStr "6+ anos"; CStr "1-2 anos"; CNull; CStr "10 anos"]);
   ("kn_ref", [CStr "Básico"; CStr "Razoável"; CStr "Nenhum";
               CStr "Avançado"; CStr "Básico"; CNull; CStr "Básico"]);
   ("kn_java", [CStr "Razoável"; CStr "Avançado"; CStr "Básico";
                CStr "Avançado"; CStr "Intermediário"; CNull; CStr "Básico"])].

Definition loaded (r : result DataFrame) : DataFrame :=
  match r with Ok df => df | Raise _ => [] end.

(** the two demonstration tables as the loaders return them *)
Definition metrics : DataFrame := loaded (@load_metrics library metrics_csv).
Definition profile : DataFrame := loaded (@load_profile library profile_csv).

(** the sample with every participant in the first experience bracket *)
Definition novices : DataFrame :=
  setcol sample "experiencia" (replicate 7 (CStr "0-1 anos")).

Definition world0 : world := {| w_dirs := ∅; w_files := ∅; w_log := [] |}.
End Demo.

(** * Properties *)

(** ** The error monad *)

Lemma bind_Ok_inv {A B} (m : result A) (f : A → result B) (b : B) :
  m ≫= f = Ok b → ∃ a, m = Ok a ∧ f a = Ok b.
Proof. destruct m as [a|e]; simpl; [eauto | discriminate]. Qed.

Ltac inv_bind H :=
  let a := fresh "v" in
  let Ha := fresh "E" in
  apply bind_Ok_inv in H as (a & Ha & H).

Lemma mapM_Ok_inv {A B} (f : A → result B) (l : list A) (l' : list B) :
  mapM f l = Ok l' → Forall2 (λ a b, f a = Ok b) l l'.
Proof.
  revert l'; induction l as [|x l IH]; intros l' Hm; simpl in Hm.
  - injection Hm as <-. constructor.
  - inv_bind Hm. inv_bind Hm. injection Hm as <-. constructor; auto.
Qed.

Lemma mapM_Raise {A B} (f : A → result B) (l : list A) (x : A) :
  x ∈ l → (∃ e, f x = Raise e) → ∃ e, mapM f l = Raise e.
Proof.
  intros Hin [e He]. induction l as [|y l IH]; [by apply elem_of_nil in Hin|].
  simpl. apply elem_of_cons in Hin as [<- | Hin].
  - rewrite He. eauto.
  - destruct (f y); simpl; [|eauto].
    destruct (IH Hin) as [e' ->]. eauto.
Qed.

(** ** Columns *)

Lemma elem_of_map {A B} (f : A → B) (l : list A) (y : B) :
  y ∈ map f l ↔ ∃ x, y = f x ∧ x ∈ l.
Proof.
  rewrite list_elem_of_In, in_map_iff. split; intros (x & Hx & Hin); exists x.
  - by rewrite list_elem_of_In.
  - by rewrite <- list_elem_of_In.
Qed.

Lemma lookup_map {A B} (f : A → B) (l : list A) (i : nat) :
  map f l !! i = f <$> l !! i.
Proof. revert i; induction l as [|x l IH]; intros [|i]; simpl; auto. Qed.

Lemma getcol_setcol_eq (df : DataFrame) (c : string) (s : Series) :
  getcol (setcol df c s) c = Ok s.
Proof.
  induction df as [|[n s0] df IH]; simpl.
  - by rewrite decide_True.
  - destruct (decide (n = c)); simpl.
    + by rewrite decide_True.
    + by rewrite decide_False.
Qed.

Lemma getcol_setcol_ne (df : DataFrame) (c c' : string) (s : Series) :
  c ≠ c' → getcol (setcol df c s) c' = getcol df c'.
Proof.
  intros Hne. induction df as [|[n s0] df IH]; simpl.
  - rewrite decide_False by done.
    (* the two [KeyError]s name the same label *)
    done.
  - destruct (decide (n = c)) as [->|Hn]; simpl.
    + by rewrite !decide_False.
    + destruct (decide (n = c')); auto.
Qed.

Lemma getcol_Some_elem (df : DataFrame) (c : string) (s : Series) :
  getcol df c = Ok s → (c, s) ∈ df.
Proof.
  induction df as [|[n s0] df IH]; simpl; [discriminate|].
  destruct (decide (n = c)) as [->|Hn].
  - intros [= ->]. apply elem_of_cons; auto.
  - intros Hg. apply elem_of_cons; auto.
Qed.

Lemma getcol_present (df : DataFrame) (c : string) :
  c ∈ labels df → ∃ s, getcol df c = Ok s.
Proof.
  induction df as [|[n s] df IH]; simpl; [by intros ?%elem_of_nil|].
  intros Hc. destruct (decide (n = c)); [by eexists|].
  apply elem_of_cons in Hc as [-> | Hc]; [done | auto].
Qed.

Lemma getcol_Ok_or_KeyError (df : DataFrame) (c : string) :
  (∃ s, getcol df c = Ok s) ∨ getcol df c = Raise (KeyError c).
Proof.
  induction df as [|[n s] df IH]; simpl; [by right|].
  destruct (decide (n = c)); [left; by eexists | exact IH].
Qed.

(** ** Columns by label *)

Lemma columns_named_label (df : DataFrame) (c : string) (p : string * Series) :
  p ∈ columns_named df c → p.1 = c.
Proof. unfold columns_named. by intros [? _]%list_elem_of_filter. Qed.

Lemma columns_named_nil (df : DataFrame) (c : string) :
  columns_named df c = [] ↔ c ∉ labels df.
Proof.
  unfold columns_named, labels. induction df as [|[n s] df IH]; simpl.
  - split; [intros _; apply not_elem_of_nil | done].
  - rewrite filter_cons, not_elem_of_cons. simpl.
    destruct (decide (n = c)) as [->|Hn].
    + split; [discriminate | by intros [? _]].
    + rewrite IH. split; [by intros ?; split; [congruence|] | by intros [_ ?]].
Qed.

Lemma getcol_columns_named (df : DataFrame) (c : string) :
  getcol df c = match columns_named df c with
                | [] => Raise (KeyError c)
                | p :: _ => Ok p.2
                end.
Proof.
  unfold columns_named. induction df as [|[n s] df IH]; simpl; [done|].
  rewrite filter_cons. simpl. by destruct (decide (n = c)).
Qed.

Lemma getseries_Ok (df : DataFrame) (c : string) (err : exn) (s : Series) :
  getseries df c err = Ok s ↔ columns_named df c = [(c, s)].
Proof.
  unfold getseries.
  destruct (columns_named df c) as [|[n s0] [|q r]] eqn:Hc.
  - split; discriminate.
  - assert (n = c) as ->
      by (apply (columns_named_label df c (n, s0)); rewrite Hc; by left).
    simpl. split; congruence.
  - split; discriminate.
Qed.

Lemma getseries_getcol (df : DataFrame) (c : string) (err : exn) (s : Series) :
  getseries df c err = Ok s → getcol df c = Ok s.
Proof. intros Hs%getseries_Ok. by rewrite getcol_columns_named, Hs. Qed.

Lemma columns_named_one_getcol (df : DataFrame) (c : string) (s : Series) :
  columns_named df c = [(c, s)] → getcol df c = Ok s.
Proof. intros Hs. by rewrite getcol_columns_named, Hs. Qed.

Lemma columns_named_setcol_ne (df : DataFrame) (c c' : string) (s : Series) :
  c ≠ c' → columns_named (setcol df c s) c' = columns_named df c'.
Proof.
  intros Hne. unfold columns_named. induction df as [|[n s0] df IH]; simpl.
  - rewrite filter_cons. simpl. by rewrite decide_False.
  - destruct (decide (n = c)) as [->|Hn].
    + rewrite !filter_cons. simpl. by rewrite !decide_False.
    + rewrite !filter_cons. simpl. by rewrite IH.
Qed.

Lemma columns_named_setcol_one (df : DataFrame) (c : string) (s0 s : Series) :
  columns_named df c = [(c, s0)] → columns_named (setcol df c s) c = [(c, s)].
Proof.
  unfold columns_named. induction df as [|[n s1] df IH]; simpl; [done|].
  rewrite filter_cons. simpl. destruct (decide (n = c)) as [->|Hn].
  - intros [= -> Hrest]. rewrite filter_cons. simpl.
    by rewrite decide_True, Hrest.
  - intros Hone. rewrite filter_cons. simpl. rewrite decide_False by done. auto.
Qed.

Lemma getcol_missing (df : DataFrame) (c : string) :
  c ∉ labels df → getcol df c = Raise (KeyError c).
Proof. intros Hc%columns_named_nil. by rewrite getcol_columns_named, Hc. Qed.

Lemma getseries_missing (df : DataFrame) (c : string) (err : exn) :
  c ∉ labels df → getseries df c err = Raise (KeyError c).
Proof. intros Hc%columns_named_nil. unfold getseries. by rewrite Hc. Qed.

Lemma getcol_label (df : DataFrame) (c : string) (s : Series) :
  getcol df c = Ok s → c ∈ labels df.
Proof.
  intros Hs. apply getcol_Some_elem in Hs.
  unfold labels. apply elem_of_map. by exists (c, s).
Qed.

Lemma columns_named_one_label (df : DataFrame) (c : string) (s : Series) :
  columns_named df c = [(c, s)] → c ∈ labels df.
Proof. intros Hs. eapply getcol_label. by apply columns_named_one_getcol. Qed.

Lemma labels_app (l r : DataFrame) : labels (l ++ r) = (labels l ++ labels r)%list.
Proof. apply map_app. Qed.

Lemma getcol_app_skip (l r : DataFrame) (c : string) :
  c ∉ labels l → getcol (l ++ r) c = getcol r c.
Proof.
  induction l as [|[n s] l IH]; simpl; [done|].
  intros [Hne Hc]%not_elem_of_cons. rewrite decide_False by done. auto.
Qed.

Lemma getcol_columns_named_app (df rest : DataFrame) (c : string) :
  c ∈ labels df → getcol (columns_named df c ++ rest) c = getcol df c.
Proof.
  intros Hc. rewrite (getcol_columns_named df c).
  destruct (columns_named df c) as [|[n s] r] eqn:Hcols.
  - by apply columns_named_nil in Hcols.
  - assert (n = c) as ->
      by (apply (columns_named_label df c (n, s)); rewrite Hcols; by left).
    simpl. by rewrite decide_True.
Qed.

Lemma columns_named_labels (df : DataFrame) (c : string) :
  labels (columns_named df c) = replicate (length (columns_named df c)) c.
Proof.
  unfold columns_named, labels. induction df as [|[n s] df IH]; simpl; [done|].
  rewrite filter_cons. simpl. destruct (decide (n = c)) as [->|]; simpl; by rewrite ?IH.
Qed.

Lemma columns_named_NoDup (df : DataFrame) (c : string) (s : Series) :
  NoDup (labels df) → getcol df c = Ok s → columns_named df c = [(c, s)].
Proof.
  unfold columns_named, labels. induction df as [|[n s0] df IH]; simpl; [done|].
  intros [Hn Hnd]%NoDup_cons. rewrite filter_cons. simpl.
  destruct (decide (n = c)) as [->|Hne].
  - intros [= ->]. f_equal. by apply columns_named_nil.
  - auto.
Qed.

Lemma mapM_Ok_intro {A B} (f : A → result B) (l : list A) (l' : list B) :
  Forall2 (λ a b, f a = Ok b) l l' → mapM f l = Ok l'.
Proof.
  induction 1 as [|x y l l' Hxy _ IH]; simpl; [done|].
  by rewrite Hxy; simpl; rewrite IH.
Qed.

Lemma mapM_total {A B} (f : A → result B) (l : list A) :
  Forall (λ x, ∃ y, f x = Ok y) l → ∃ l', mapM f l = Ok l'.
Proof.
  induction 1 as [|x l [y Hy] _ [l' IH]]; simpl; [by eexists|].
  rewrite Hy. simpl. rewrite IH. by eexists.
Qed.

(** [df[[...]]] succeeds exactly when every requested label is there, and
    then returns, label by label, the columns that carry it *)
Lemma select_columns_Ok (cols : list string) (df df' : DataFrame) :
  select_columns cols df = Ok df' ↔
  Forall (λ c, c ∈ labels df) cols ∧ df' = concat (map (columns_named df) cols).
Proof.
  unfold select_columns. revert df'.
  induction cols as [|c cols IH]; intros df'; simpl.
  - split; [by intros [= <-] | by intros [_ ->]].
  - destruct (columns_named df c) as [|p ps] eqn:Hc.
    + split; [discriminate|]. intros [[Hin _]%Forall_cons _].
      by apply columns_named_nil in Hc.
    + assert (Hin : c ∈ labels df).
      { destruct (decide (c ∈ labels df)) as [|Hno]; [done|].
        apply columns_named_nil in Hno. congruence. }
      simpl. destruct (mapM _ cols) as [cs|e] eqn:Hm; simpl.
      * destruct (IH (concat cs)) as [IH1 _].
        destruct (IH1 eq_refl) as [Hall Hcs]. rewrite <- Hcs.
        split; [intros [= <-] | by intros [_ ->]].
        split; [by constructor | done].
      * split; [discriminate|]. intros [[_ Hall]%Forall_cons _].
        destruct (IH (concat (map (columns_named df) cols))) as [_ IH2].
        by specialize (IH2 (conj Hall eq_refl)).
Qed.

(** ** [load_metrics] *)

Section LoadMetricsFacts.
Context `{Library}.

Lemma astype_float_strict_Ok (s s' : Series) :
  astype_float_strict s = Ok s' →
  Forall2 (λ c c', ∃ x, parse_decimal_comma c = Some x ∧ c' = CNum x) s s'.
Proof.
  intros Hm. apply mapM_Ok_inv in Hm.
  eapply Forall2_impl; [exact Hm|]. intros c c'; simpl.
  destruct (parse_decimal_comma c); [|discriminate].
  intros [= <-]. eauto.
Qed.

Lemma astype_float_strict_Raise (s : Series) (c : cell) :
  c ∈ s → parse_decimal_comma c = None → ∃ e, astype_float_strict s = Raise e.
Proof.
  intros Hin Hc. eapply mapM_Raise; [exact Hin|]. rewrite Hc. eauto.
Qed.

Lemma astype_float_strict_total (s : Series) :
  Forall (λ c, is_Some (parse_decimal_comma c)) s →
  ∃ s', astype_float_strict s = Ok s'.
Proof.
  intros Hs. apply mapM_total. eapply Forall_impl; [exact Hs|].
  intros c [x Hx]. simpl. rewrite Hx. by eexists.
Qed.

Lemma astype_float_strict_parsed (s s' : Series) :
  astype_float_strict s = Ok s' →
  Forall (λ c, is_Some (parse_decimal_comma c)) s ∧
  length s' = length s ∧ Forall (λ c, is_num c = true) s'.
Proof.
  intros Hs. apply astype_float_strict_Ok in Hs.
  induction Hs as [|c c' s s' (x & Hx & ->) _ (IH1 & IH2 & IH3)]; [done|].
  split; [constructor; [by exists x | done]|].
  split; [simpl; by rewrite IH2 | by constructor].
Qed.

Lemma coerce_strict_Ok (df df' : DataFrame) (col : string) :
  coerce_strict df col = Ok df' ↔
  ∃ s s', columns_named df col = [(col, s)] ∧ astype_float_strict s = Ok s' ∧
          df' = setcol df col s'.
Proof.
  unfold coerce_strict. split.
  - intros Hc. inv_bind Hc. inv_bind Hc. injection Hc as <-.
    apply getseries_Ok in E. eauto.
  - intros (s & s' & Hs & Hs' & ->). eapply getseries_Ok in Hs.
    rewrite Hs. simpl. by rewrite Hs'.
Qed.

Lemma coerce_lenient_Ok (df df' : DataFrame) (col : string) :
  coerce_lenient df col = Ok df' ↔
  ∃ s, columns_named df col = [(col, s)] ∧ df' = setcol df col (to_numeric_coerce s).
Proof.
  unfold coerce_lenient. split.
  - intros Hc. inv_bind Hc. injection Hc as <-. apply getseries_Ok in E. eauto.
  - intros (s & Hs & ->). eapply getseries_Ok in Hs. by rewrite Hs.
Qed.

(** A load succeeds exactly when, after renaming, each of the four
    numeric labels is on one column, "ID" and "ferramenta" are there, and
    the two strict columns parse cell by cell; the table it returns is
    then the "ID" columns, the three numeric columns kept, and the
    "ferramenta" columns. *)
Lemma load_metrics_frame_spec (df_raw df : DataFrame) :
  load_metrics_frame df_raw = Ok df ↔
  ∃ t t' l l' e d,
    columns_named (rename_columns metrics_rename df_raw) "tempo_h" = [("tempo_h", t)] ∧
    columns_named (rename_columns metrics_rename df_raw) "loc_mod" = [("loc_mod", l)] ∧
    columns_named (rename_columns metrics_rename df_raw) "erros" = [("erros", e)] ∧
    columns_named (rename_columns metrics_rename df_raw) "design" = [("design", d)] ∧
    "ID" ∈ labels (rename_columns metrics_rename df_raw) ∧
    "ferramenta" ∈ labels (rename_columns metrics_rename df_raw) ∧
    astype_float_strict t = Ok t' ∧ astype_float_strict l = Ok l' ∧
    df = (columns_named (rename_columns metrics_rename df_raw) "ID" ++
          [("tempo_h", t'); ("erros", to_numeric_coerce e);
           ("design", to_numeric_coerce d)] ++
          columns_named (rename_columns metrics_rename df_raw) "ferramenta")%list.
Proof.
  unfold load_metrics_frame.
  set (df0 := rename_columns metrics_rename df_raw).
  assert (Hlab : ∀ df1 c s, c ∈ labels (setcol df1 c s)).
  { intros df1 c s. eapply getcol_label, getcol_setcol_eq. }
  assert (Hkeep : ∀ df1 c c' s, c ≠ c' → c' ∈ labels (setcol df1 c s) ↔ c' ∈ labels df1).
  { intros df1 c c' s Hne.
    destruct (decide (c' ∈ labels df1)) as [Hin|Hno],
             (decide (c' ∈ labels (setcol df1 c s))) as [Hin'|Hno']; try tauto.
    - apply columns_named_nil in Hno'. rewrite columns_named_setcol_ne in Hno' by done.
      by apply columns_named_nil in Hno'.
    - apply columns_named_nil in Hno. rewrite <- (columns_named_setcol_ne _ c _ s) in Hno by done.
      by apply columns_named_nil in Hno. }
  split.
  - intros Hl.
    inv_bind Hl. apply coerce_strict_Ok in E as (t & t' & Ht & Ht' & ->).
    inv_bind Hl. apply coerce_strict_Ok in E as (l & l' & Hl0 & Hl' & ->).
    inv_bind Hl. apply coerce_lenient_Ok in E as (e & He & ->).
    inv_bind Hl. apply coerce_lenient_Ok in E as (d & Hd & ->).
    apply select_columns_Ok in Hl as [Hall ->].
    rewrite columns_named_setcol_ne in Hl0 by done.
    do 2 rewrite columns_named_setcol_ne in He by done.
    do 3 rewrite columns_named_setcol_ne in Hd by done.
    exists t, t', l, l', e, d. do 4 (split; [done|]).
    apply Forall_cons in Hall as [Hid Hall].
    do 3 apply Forall_cons in Hall as [_ Hall].
    apply Forall_cons in Hall as [Hf _].
    rewrite !Hkeep in Hid, Hf by done.
    do 4 (split; [done|]).
    cbn [map concat]. rewrite app_nil_r.
    rewrite !(columns_named_setcol_ne _ _ "ID") by done.
    rewrite !(columns_named_setcol_ne _ _ "ferramenta") by done.
    rewrite (columns_named_setcol_ne _ "design" "tempo_h") by done.
    rewrite (columns_named_setcol_ne _ "erros" "tempo_h") by done.
    rewrite (columns_named_setcol_ne _ "loc_mod" "tempo_h") by done.
    rewrite (columns_named_setcol_one _ "tempo_h" t t') by done.
    rewrite (columns_named_setcol_ne _ "design" "erros") by done.
    rewrite (columns_named_setcol_one _ "erros" e)
      by (by rewrite !columns_named_setcol_ne).
    rewrite (columns_named_setcol_one _ "design" d)
      by (by rewrite !columns_named_setcol_ne).
    done.
  - intros (t & t' & l & l' & e & d & Ht & Hl0 & He & Hd & Hid & Hf & Ht' & Hl' & ->).
    assert (Hb : ∀ (A B : Type) (a : A) (k : A → result B), Ok a ≫= k = k a) by done.
    rewrite (proj2 (coerce_strict_Ok df0 _ "tempo_h")) by eauto 6.
    rewrite Hb.
    rewrite (proj2 (coerce_strict_Ok _ _ "loc_mod"))
      by (exists l, l'; by rewrite !columns_named_setcol_ne).
    rewrite Hb.
    rewrite (proj2 (coerce_lenient_Ok _ _ "erros"))
      by (exists e; by rewrite !columns_named_setcol_ne).
    rewrite Hb.
    rewrite (proj2 (coerce_lenient_Ok _ _ "design"))
      by (exists d; by rewrite !columns_named_setcol_ne).
    rewrite Hb.
    apply select_columns_Ok. split.
    + repeat constructor; rewrite ?Hkeep by done; try done; apply Hlab.
    + cbn [map concat]. rewrite app_nil_r.
      rewrite !(columns_named_setcol_ne _ _ "ID") by done.
      rewrite !(columns_named_setcol_ne _ _ "ferramenta") by done.
      rewrite (columns_named_setcol_ne _ "design" "tempo_h") by done.
      rewrite (columns_named_setcol_ne _ "erros" "tempo_h") by done.
      rewrite (columns_named_setcol_ne _ "loc_mod" "tempo_h") by done.
      rewrite (columns_named_setcol_one _ "tempo_h" t t') by done.
      rewrite (columns_named_setcol_ne _ "design" "erros") by done.
      rewrite (columns_named_setcol_one _ "erros" e)
        by (by rewrite !columns_named_setcol_ne).
      rewrite (columns_named_setcol_one _ "design" d)
        by (by rewrite !columns_named_setcol_ne).
      done.
Qed.

(** the columns of a loaded table, by label *)
Lemma loaded_columns (df0 : DataFrame) (t e d : Series) :
  "ID" ∈ labels df0 → "ferramenta" ∈ labels df0 →
  ∀ df, df = (columns_named df0 "ID" ++
              [("tempo_h", t); ("erros", e); ("design", d)] ++
              columns_named df0 "ferramenta")%list →
  getcol df "ID" = getcol df0 "ID" ∧
  getcol df "tempo_h" = Ok t ∧ getcol df "erros" = Ok e ∧
  getcol df "design" = Ok d ∧
  getcol df "ferramenta" = getcol df0 "ferramenta" ∧
  getcol df "loc_mod" = Raise (KeyError "loc_mod").
Proof.
  intros Hid Hf df ->.
  assert (Hskip : ∀ c c', c ≠ c' → c' ∉ labels (columns_named df0 c)).
  { intros c c' Hne. rewrite columns_named_labels.
    intros Hin%elem_of_replicate. by destruct Hin as [-> _]. }
  split; [by apply getcol_columns_named_app|].
  rewrite !(getcol_app_skip (columns_named df0 "ID")) by (by apply Hskip).
  do 3 (split; [done|]). simpl.
  rewrite <- (app_nil_r (columns_named df0 "ferramenta")).
  split; [by rewrite getcol_columns_named_app|].
  rewrite app_nil_r. apply getcol_missing. by apply Hskip.
Qed.

(** What a successful load did, by lookups: the six columns were there,
    the two strict ones parsed cell by cell, the two lenient ones were
    coerced, and the five selected columns are in the result. *)
Lemma load_metrics_frame_Ok (df_raw df : DataFrame) :
  ∀ df0, df0 = rename_columns metrics_rename df_raw →
  load_metrics_frame df_raw = Ok df →
  ∃ id t t' l l' e d f,
    getcol df0 "ID" = Ok id ∧ getcol df0 "tempo_h" = Ok t ∧
    getcol df0 "loc_mod" = Ok l ∧ getcol df0 "erros" = Ok e ∧
    getcol df0 "design" = Ok d ∧ getcol df0 "ferramenta" = Ok f ∧
    astype_float_strict t = Ok t' ∧ astype_float_strict l = Ok l' ∧
    getcol df "ID" = Ok id ∧ getcol df "tempo_h" = Ok t' ∧
    getcol df "erros" = Ok (to_numeric_coerce e) ∧
    getcol df "design" = Ok (to_numeric_coerce d) ∧
    getcol df "ferramenta" = Ok f ∧
    getcol df "loc_mod" = Raise (KeyError "loc_mod").
Proof.
  intros df0 -> Hl.
  apply load_metrics_frame_spec in Hl
    as (t & t' & l & l' & e & d & Ht & Hl0 & He & Hd & Hid & Hf & Ht' & Hl' & Hdf).
  destruct (loaded_columns _ t' (to_numeric_coerce e) (to_numeric_coerce d) Hid Hf df Hdf)
    as (Gid & Gt & Ge & Gd & Gf & Gl).
  destruct (getcol_present _ _ Hid) as [id Hid'].
  destruct (getcol_present _ _ Hf) as [f Hf'].
  exists id, t, t', l, l', e, d, f.
  rewrite Gid, Gf.
  repeat split; auto using columns_named_one_getcol.
Qed.
End LoadMetricsFacts.

Section LoadMetricsSpec.
Context `{Library}.

Lemma main_load_failure (e : exn) (w : world) :
  load_metrics metrics_csv = Raise e → run main w = (Raise e, w).
Proof.
  intros Hload. unfold main. unfold mbind at 1. unfold io_bind.
  cbn [run lift]. by rewrite Hload.
Qed.

Lemma to_numeric_coerce_lookup (s : Series) (i : nat) (c : cell) :
  s !! i = Some c →
  to_numeric_coerce s !! i = Some (CNum (default F64.nan (to_numeric_cell c))).
Proof.
  intros Hi. unfold to_numeric_coerce. by rewrite lookup_map, Hi.
Qed.

(** C2 (as amended).  A cell of "Tempo (h)" or "LOC Modificadas" whose
    text Python's [float] refuses makes the load raise, and the run of the
    script ends with that exception.  A cell of "Erros Funcionais" or
    "Problemas de Design" that [pd.to_numeric] cannot parse never does:
    whenever the six columns are there (each numeric label once) and the
    two strict columns parse, the load succeeds whatever the two lenient
    columns hold, and such a cell is NaN in the table returned.  A
    missing cell, which [read_csv] hands over as NaN, is malformed in
    neither kind of column: [pd.to_numeric] keeps it, and [float] accepts
    the text "nan" that [astype(str)] makes of it. *)
Theorem load_metrics_malformed_values (csv : string) (df_raw : DataFrame) :
  read_csv csv = Ok df_raw →
  (∀ col s c,
      col ∈ ["tempo_h"; "loc_mod"] →
      getcol (rename_columns metrics_rename df_raw) col = Ok s →
      c ∈ s → parse_decimal_comma c = None →
      ∃ e, load_metrics csv = Raise e ∧
           (csv = metrics_csv → ∀ w, run main w = (Raise e, w))) ∧
  (∀ t l e d,
      columns_named (rename_columns metrics_rename df_raw) "tempo_h" = [("tempo_h", t)] →
      columns_named (rename_columns metrics_rename df_raw) "loc_mod" = [("loc_mod", l)] →
      columns_named (rename_columns metrics_rename df_raw) "erros" = [("erros", e)] →
      columns_named (rename_columns metrics_rename df_raw) "design" = [("design", d)] →
      "ID" ∈ labels (rename_columns metrics_rename df_raw) →
      "ferramenta" ∈ labels (rename_columns metrics_rename df_raw) →
      Forall (λ c, is_Some (parse_decimal_comma c)) t →
      Forall (λ c, is_Some (parse_decimal_comma c)) l →
      ∃ df, load_metrics csv = Ok df ∧
            getcol df "erros" = Ok (to_numeric_coerce e) ∧
            getcol df "design" = Ok (to_numeric_coerce d) ∧
            ∀ s i c, s = e ∨ s = d → s !! i = Some c → to_numeric_cell c = None →
                     to_numeric_coerce s !! i = Some CNull) ∧
  (to_numeric_cell CNull = Some F64.nan ∧
   (float_repr F64.nan = "nan" → str_strip "nan" = "nan" →
    float_of_str "nan" = Some F64.nan →
    parse_decimal_comma CNull = Some F64.nan)).
Proof.
  intros Hread. unfold load_metrics. rewrite Hread. simpl. split; [|split].
  - intros col s c Hcol Hs Hc Hbad.
    assert (∃ e, load_metrics_frame df_raw = Raise e) as [e Hraise].
    { destruct (astype_float_strict_Raise s c Hc Hbad) as [e He].
      unfold load_metrics_frame, coerce_strict.
      set (df0 := rename_columns metrics_rename df_raw) in *.
      apply elem_of_cons in Hcol as [-> | Hcol].
      { destruct (getseries df0 "tempo_h" _) as [t|e0] eqn:Ht; simpl; [|eauto].
        apply getseries_getcol in Ht. rewrite Hs in Ht. injection Ht as <-.
        rewrite He. simpl. eauto. }
      apply list_elem_of_singleton in Hcol as ->.
      destruct (getseries df0 "tempo_h" _) as [t|e0]; simpl; [|eauto].
      destruct (astype_float_strict t) as [t'|e0]; simpl; [|eauto].
      destruct (getseries _ "loc_mod" _) as [l|e0] eqn:Hl; simpl; [|eauto].
      apply getseries_getcol in Hl. rewrite getcol_setcol_ne, Hs in Hl by done.
      injection Hl as <-. rewrite He. simpl. eauto. }
    exists e. split; [done|]. intros -> w.
    apply main_load_failure. unfold load_metrics. by rewrite Hread.
  - intros t l e d Ht Hl He Hd Hid Hf Hpt Hpl.
    destruct (astype_float_strict_total t Hpt) as [t' Ht'].
    destruct (astype_float_strict_total l Hpl) as [l' Hl'].
    eexists. split.
    { apply load_metrics_frame_spec. exists t, t', l, l', e, d.
      do 8 (split; [done|]). reflexivity. }
    destruct (loaded_columns _ t' (to_numeric_coerce e) (to_numeric_coerce d)
                Hid Hf _ eq_refl) as (_ & _ & Ge & Gd & _).
    split; [exact Ge|]. split; [exact Gd|].
    intros s i c _ Hi Hbad. by rewrite (to_numeric_coerce_lookup _ _ _ Hi), Hbad.
  - split; [done|]. intros Hrepr Hstrip Hfloat.
    unfold parse_decimal_comma. simpl. by rewrite Hrepr, Hstrip.
Qed.

(** C3 (as amended).  The table [load_metrics] returns has no column
    other than ID, tempo_h, erros, design and ferramenta, and these five
    it has; when the labels of the file are distinct after renaming, they
    are its columns exactly, in this order.  "LOC Modificadas" had to be
    present and to parse for the load to succeed, but the column is not
    among those returned. *)
Theorem load_metrics_columns (csv : string) (df : DataFrame) :
  load_metrics csv = Ok df →
  (∀ n, n ∈ labels df ↔ n ∈ ["ID"; "tempo_h"; "erros"; "design"; "ferramenta"]) ∧
  getcol df "loc_mod" = Raise (KeyError "loc_mod") ∧
  ∃ df_raw loc,
    read_csv csv = Ok df_raw ∧
    columns_named (rename_columns metrics_rename df_raw) "loc_mod" = [("loc_mod", loc)] ∧
    Forall (λ c, is_Some (parse_decimal_comma c)) loc ∧
    (NoDup (labels (rename_columns metrics_rename df_raw)) →
     labels df = ["ID"; "tempo_h"; "erros"; "design"; "ferramenta"]).
Proof.
  unfold load_metrics. intros Hload. inv_bind Hload. rename v into df_raw.
  apply load_metrics_frame_spec in Hload
    as (t & t' & l & l' & e & d & Ht & Hl0 & He & Hd & Hid & Hf & Ht' & Hl' & Hdf).
  set (df0 := rename_columns metrics_rename df_raw) in *.
  destruct (loaded_columns _ t' (to_numeric_coerce e) (to_numeric_coerce d) Hid Hf df Hdf)
    as (_ & _ & _ & _ & _ & Gl).
  assert (Hlabels : labels df
            = (replicate (length (columns_named df0 "ID")) "ID" ++
               ["tempo_h"; "erros"; "design"] ++
               replicate (length (columns_named df0 "ferramenta")) "ferramenta")%list).
  { rewrite Hdf, !labels_app, !columns_named_labels. done. }
  assert (Hne : ∀ c, c ∈ labels df0 → columns_named df0 c ≠ []).
  { intros c Hc Hnil. by apply columns_named_nil in Hnil. }
  split; [|split; [exact Gl|]].
  - intros n. rewrite Hlabels, !elem_of_app, !elem_of_replicate, !elem_of_cons.
    split.
    + intros [[-> _] | [Hn | [-> _]]]; [tauto | | tauto].
      destruct Hn as [-> | [-> | [-> | Hn]]]; [tauto | tauto | tauto |].
      by apply elem_of_nil in Hn.
    + pose proof (Hne "ID" Hid) as Hni. pose proof (Hne "ferramenta" Hf) as Hnf.
      intros [-> | [-> | [-> | [-> | [-> | Hn]]]]].
      * left. split; [done|]. by destruct (columns_named df0 "ID").
      * tauto.
      * tauto.
      * tauto.
      * right. right. split; [done|]. by destruct (columns_named df0 "ferramenta").
      * by apply elem_of_nil in Hn.
  - exists df_raw, l. split; [done|]. split; [done|].
    split; [by apply astype_float_strict_parsed in Hl' as [? _]|].
    intros Hnd. rewrite Hlabels.
    destruct (getcol_present _ _ Hid) as [id Hid'].
    destruct (getcol_present _ _ Hf) as [f Hf'].
    rewrite (columns_named_NoDup df0 "ID" id Hnd Hid').
    rewrite (columns_named_NoDup df0 "ferramenta" f Hnd Hf').
    done.
Qed.
End LoadMetricsSpec.

(** C2, witness: a time "1h30" makes the load raise and ends the run;
    the demonstration table loads, and its unparseable error count "n/d"
    comes out as NaN; the stand-in for [float] accepts a missing cell. *)
Lemma load_metrics_malformed_values_witness :
  (∃ e, @load_metrics Demo.bad_time_library metrics_csv = Raise e ∧
        run (@main Demo.bad_time_library) Demo.world0 = (Raise e, Demo.world0)) ∧
  (∃ df s, @load_metrics Demo.library metrics_csv = Ok df ∧
           getcol df "erros" = Ok s ∧ s !! 5%nat = Some CNull) ∧
  @parse_decimal_comma Demo.library CNull = Some F64.nan.
Proof.
  split; [|split].
  - destruct (@load_metrics_malformed_values Demo.bad_time_library metrics_csv _ eq_refl)
      as [Hstrict _].
    destruct (Hstrict "tempo_h" [CStr "1,5"; CStr "1h30"] (CStr "1h30"))
      as (e & Hload & Hrun).
    + by left.
    + reflexivity.
    + right. by left.
    + reflexivity.
    + exists e. split; [exact Hload | by apply Hrun].
  - destruct (@load_metrics_malformed_values Demo.library metrics_csv _ eq_refl)
      as (_ & Hlenient & _).
    edestruct Hlenient as (df & Hload & He & _ & Hnan);
      [reflexivity | reflexivity | reflexivity | reflexivity | | | | |].
    + refine (bool_decide_unpack _ _). by vm_compute.
    + refine (bool_decide_unpack _ _). by vm_compute.
    + refine (bool_decide_unpack _ _). by vm_compute.
    + refine (bool_decide_unpack _ _). by vm_compute.
    + eexists df, _. split; [exact Hload|]. split; [exact He|].
      apply (Hnan _ 5%nat (CStr "n/d")); [by left | reflexivity | reflexivity].
  - destruct (@load_metrics_malformed_values Demo.library metrics_csv _ eq_refl)
      as (_ & _ & _ & Hmissing).
    by apply Hmissing.
Defined.

(** C2, counterexample: "n/d" in "Erros Funcionais" is not a number, and
    the load succeeds all the same. *)
Lemma load_metrics_malformed_not_always_raised :
  ¬ (∀ (L : Library) (csv : string) (df_raw : DataFrame) (col : string)
       (s : Series) (c : cell),
        read_csv csv = Ok df_raw →
        col ∈ ["erros"; "design"] →
        getcol (rename_columns metrics_rename df_raw) col = Ok s →
        c ∈ s → to_numeric_cell c = None →
        ∃ e, load_metrics csv = Raise e).
Proof.
  intros Hany.
  assert (∃ e, @load_metrics Demo.library "coleta.csv" = Raise e) as [e He].
  { eapply (Hany Demo.library "coleta.csv" _ "erros" _ (CStr "n/d"));
      [reflexivity | constructor | reflexivity | | reflexivity].
    vm_compute. repeat constructor. }
  vm_compute in He. discriminate.
Qed.

(** C3, witness: the demonstration table, whose labels are distinct. *)
Lemma load_metrics_columns_witness :
  ∃ df, @load_metrics Demo.library "coleta.csv" = Ok df ∧
        labels df = ["ID"; "tempo_h"; "erros"; "design"; "ferramenta"] ∧
        getcol df "loc_mod" = Raise (KeyError "loc_mod").
Proof.
  destruct (@load_metrics Demo.library "coleta.csv") as [df|e] eqn:Hload;
    [|vm_compute in Hload; discriminate].
  exists df. split; [done|].
  destruct (@load_metrics_columns Demo.library "coleta.csv" df Hload)
    as (_ & Hloc & df_raw & loc & Hread & _ & _ & Hlabels).
  split; [|exact Hloc]. apply Hlabels.
  vm_compute in Hread. injection Hread as <-.
  refine (bool_decide_unpack _ _). by vm_compute.
Defined.

(** C3, counterexample: the raw table has "LOC Modificadas", the loaded
    one has no lines-modified column to hand on. *)
Lemma load_metrics_drops_loc_mod :
  ¬ (∀ (L : Library) (csv : string) (df : DataFrame),
        load_metrics csv = Ok df → ∃ s, getcol df "loc_mod" = Ok s).
Proof.
  intros Hany.
  destruct (@load_metrics Demo.library "coleta.csv") as [df|e] eqn:Hload;
    [|vm_compute in Hload; discriminate].
  destruct (Hany Demo.library "coleta.csv" df Hload) as [s Hs].
  vm_compute in Hload. injection Hload as <-. vm_compute in Hs. discriminate.
Qed.

(** ** Masks and groups *)

Lemma select_nil_r {A} (mask : list bool) : select mask (@nil A) = [].
Proof. by destruct mask. Qed.

(** selecting by the mask of a predicate on a first column is filtering
    the paired rows *)
Lemma select_mask_zip {A B} (P : A → Prop) `{∀ x, Decision (P x)}
    (a : list A) (b : list B) :
  select (map (λ x, bool_decide (P x)) a) b = map snd (filter (λ p, P p.1) (zip a b)).
Proof.
  revert b. induction a as [|x a IH]; intros [|y b]; simpl; try done.
  rewrite filter_cons. simpl. destruct (decide (P x)).
  - rewrite bool_decide_true by done. simpl. by rewrite IH.
  - rewrite bool_decide_false by done. apply IH.
Qed.

Lemma getcol_filter_frame (mask : list bool) (df : DataFrame) (c : string) :
  getcol (filter_frame mask df) c = select mask <$> getcol df c.
Proof.
  induction df as [|[n s] df IH]; simpl; [done|].
  destruct (decide (n = c)); [done | exact IH].
Qed.

Lemma tool_group_Ok (df : DataFrame) (tool metric : string) (g : Series) :
  tool_group df tool metric = Ok g ↔
  ∃ tools vals, getcol df "ferramenta" = Ok tools ∧ getcol df metric = Ok vals ∧
                g = select (eq_str tool tools) vals.
Proof.
  unfold tool_group. split.
  - intros Hg. inv_bind Hg. rewrite getcol_filter_frame in Hg.
    destruct (getcol df metric) as [vals|e]; [|discriminate].
    injection Hg as <-. eauto.
  - intros (tools & vals & -> & Hv & ->). simpl.
    by rewrite getcol_filter_frame, Hv.
Qed.

Lemma select_compared_rows {A} (tool : string) (tools : Series) (vals : list A) :
  tool = "SmartRefactor" ∨ tool = "Tradicional" →
  select (eq_str tool (select (compared_rows tools) tools))
         (select (compared_rows tools) vals)
  = select (eq_str tool tools) vals.
Proof.
  intros Htool. revert vals.
  induction tools as [|t tools IH]; intros [|x vals]; simpl; try done.
  - by rewrite !select_nil_r.
  - destruct (bool_decide (t = CStr tool)) eqn:Ht.
    + apply bool_decide_eq_true in Ht as ->.
      rewrite bool_decide_true by (destruct Htool as [-> | ->]; auto).
      simpl. rewrite bool_decide_true by done. by rewrite IH.
    + destruct (bool_decide (t = CStr "SmartRefactor" ∨ t = CStr "Tradicional"));
        simpl; [rewrite Ht|]; apply IH.
Qed.

Lemma tool_group_compared_rows (df : DataFrame) (tools : Series) (tool metric : string) :
  getcol df "ferramenta" = Ok tools →
  tool = "SmartRefactor" ∨ tool = "Tradicional" →
  tool_group (filter_frame (compared_rows tools) df) tool metric
  = tool_group df tool metric.
Proof.
  intros Ht Htool. unfold tool_group.
  rewrite getcol_filter_frame, Ht. simpl.
  rewrite !getcol_filter_frame.
  destruct (getcol df metric) as [vals|e]; simpl; [|done].
  by rewrite select_compared_rows.
Qed.

(** ** [hypothesis_tests] *)

Section HypothesisTestsSpec.
Context `{Library}.

(** C7.  Every row of results is computed from two groups and from
    nothing else: the metric's values at the rows whose tool is
    "SmartRefactor", and its values at the rows whose tool is
    "Tradicional".  The two normality p-values, the statistic, the
    p-value and the effect size of the row are those of these two groups;
    and the rows with any other tool can be removed from the table
    without changing any result row. *)
Theorem hypothesis_tests_two_tools_only (df : DataFrame) (rows : list hyp_row) :
  hypothesis_tests df = Ok rows →
  ∃ tools,
    getcol df "ferramenta" = Ok tools ∧
    hypothesis_tests (filter_frame (compared_rows tools) df) = Ok rows ∧
    Forall2 (λ ml row,
      ∃ vals p_smart p_trad,
        getcol df ml.1 = Ok vals ∧
        let grp_smart :=
          map snd (filter (λ p, p.1 = CStr "SmartRefactor") (zip tools vals)) in
        let grp_trad :=
          map snd (filter (λ p, p.1 = CStr "Tradicional") (zip tools vals)) in
        shapiro_pvalue grp_smart = Ok p_smart ∧
        shapiro_pvalue grp_trad = Ok p_trad ∧
        h_normal row = is_normal p_smart p_trad ∧
        (h_normal row = true →
           ∃ stat pval effect,
             ttest_ind grp_smart grp_trad false = Ok (stat, pval) ∧
             welch_effect grp_smart grp_trad = Ok effect ∧
             h_estatistica row = np_round stat 3 ∧
             h_p_valor row = np_round pval 5 ∧
             h_efeito row = np_round effect 3) ∧
        (h_normal row = false →
           ∃ stat pval,
             mannwhitneyu grp_smart grp_trad "two-sided" = Ok (stat, pval) ∧
             h_estatistica row = np_round stat 3 ∧
             h_p_valor row = np_round pval 5 ∧
             h_efeito row = np_round (mw_effect grp_smart grp_trad pval) 3))
      metric_labels rows.
Proof.
  intros Hrows.
  destruct (getcol df "ferramenta") as [tools|e] eqn:Ht.
  2:{ unfold hypothesis_tests, metric_labels in Hrows. simpl in Hrows.
      unfold tool_group in Hrows. rewrite Ht in Hrows. discriminate. }
  exists tools. split; [done|]. split.
  - rewrite <- Hrows. unfold hypothesis_tests.
    assert (Hrow : ∀ ml, hypothesis_row (filter_frame (compared_rows tools) df) ml
                         = hypothesis_row df ml).
    { intros [metric label]. unfold hypothesis_row.
      by rewrite !(tool_group_compared_rows df tools) by auto. }
    clear Hrows. induction metric_labels as [|ml mls IH]; simpl; [done|].
    by rewrite Hrow, IH.
  - unfold hypothesis_tests in Hrows. apply mapM_Ok_inv in Hrows.
    eapply Forall2_impl; [exact Hrows|]. clear Hrows rows.
    intros [metric label] row Hrow. unfold hypothesis_row in Hrow.
    inv_bind Hrow. rename v into gs. inv_bind Hrow. rename v into gt.
    apply tool_group_Ok in E as (tools1 & vals & Ht1 & Hv & ->).
    apply tool_group_Ok in E0 as (tools2 & vals2 & Ht2 & Hv2 & ->).
    rewrite Ht in Ht1, Ht2. injection Ht1 as <-. injection Ht2 as <-.
    rewrite Hv in Hv2. injection Hv2 as <-.
    unfold eq_str in Hrow.
    rewrite !(select_mask_zip (λ c, c = CStr _)) in Hrow.
    inv_bind Hrow. rename v into ps. inv_bind Hrow. rename v into pt.
    exists vals, ps, pt. cbv zeta. simpl. do 3 (split; [done|]).
    destruct (is_normal ps pt) eqn:Hn.
    + inv_bind Hrow. destruct v as [stat pval]. inv_bind Hrow.
      injection Hrow as <-. simpl. split; [done|].
      split; [|discriminate]. intros _. exists stat, pval, v. auto.
    + inv_bind Hrow. destruct v as [stat pval].
      injection Hrow as <-. simpl. split; [done|].
      split; [discriminate|]. intros _. exists stat, pval. auto.
Qed.

(** C1.  In the row of every metric, "Normal?" is the conjunction of
    the two Shapiro-Wilk p-values being above 0.05; the row reports
    Welch's t test exactly when it holds, with the statistic and p-value
    of [ttest_ind(equal_var=False)], and the two-sided Mann-Whitney test
    otherwise. *)
Theorem hypothesis_tests_selects_by_normality (df : DataFrame) (rows : list hyp_row) :
  hypothesis_tests df = Ok rows →
  Forall2 (λ ml row,
    ∃ grp_smart grp_trad p_smart p_trad,
      tool_group df "SmartRefactor" ml.1 = Ok grp_smart ∧
      tool_group df "Tradicional" ml.1 = Ok grp_trad ∧
      shapiro_pvalue grp_smart = Ok p_smart ∧
      shapiro_pvalue grp_trad = Ok p_trad ∧
      h_metrica row = ml.2 ∧
      h_normal row = F64.gtb p_smart F64.lit_0_05 && F64.gtb p_trad F64.lit_0_05 ∧
      (h_teste row = "t (Welch)" ↔
         F64.gtb p_smart F64.lit_0_05 = true ∧ F64.gtb p_trad F64.lit_0_05 = true) ∧
      (h_normal row = true →
         ∃ stat pval, ttest_ind grp_smart grp_trad false = Ok (stat, pval) ∧
                      h_estatistica row = np_round stat 3 ∧
                      h_p_valor row = np_round pval 5) ∧
      (h_normal row = false →
         h_teste row = "Mann–Whitney" ∧
         ∃ stat pval, mannwhitneyu grp_smart grp_trad "two-sided" = Ok (stat, pval) ∧
                      h_estatistica row = np_round stat 3 ∧
                      h_p_valor row = np_round pval 5))
    metric_labels rows.
Proof.
  unfold hypothesis_tests. intros Hm. apply mapM_Ok_inv in Hm.
  eapply Forall2_impl; [exact Hm|]. clear Hm rows.
  intros [metric label] row Hrow. unfold hypothesis_row in Hrow.
  inv_bind Hrow. rename v into gs. inv_bind Hrow. rename v into gt.
  inv_bind Hrow. rename v into ps. inv_bind Hrow. rename v into pt.
  exists gs, gt, ps, pt. simpl. do 4 (split; [done|]).
  unfold is_normal in Hrow.
  destruct (F64.gtb ps F64.lit_0_05 && F64.gtb pt F64.lit_0_05) eqn:Hn.
  - inv_bind Hrow. destruct v as [stat pval]. inv_bind Hrow.
    injection Hrow as <-. simpl. split; [done|]. split; [done|].
    split; [by split; [intros _; apply andb_true_iff|]|].
    split; [eauto | discriminate].
  - inv_bind Hrow. destruct v as [stat pval].
    injection Hrow as <-. simpl. split; [done|]. split; [done|].
    split.
    { split; [discriminate|]. intros [H1 H2]. by rewrite H1, H2 in Hn. }
    split; [discriminate | eauto 6].
Qed.
End HypothesisTestsSpec.

(** C7, witness: in the sample table the times of "SmartRefactor" are
    1.5, 2 and 1 and those of "Tradicional" 3.5, 2.5 and 4; the statistic
    of the first row is the one of these two groups, and dropping the
    "Eclipse" row changes no result. *)
Lemma hypothesis_tests_two_tools_only_witness :
  ∃ rows tools row,
    @hypothesis_tests Demo.library Demo.sample = Ok rows ∧
    getcol Demo.sample "ferramenta" = Ok tools ∧
    @hypothesis_tests Demo.library (filter_frame (compared_rows tools) Demo.sample)
      = Ok rows ∧
    head rows = Some row ∧
    ∃ stat,
      @mannwhitneyu Demo.library
        [CNum (F64.div (F64.of_Z 3) (F64.of_Z 2)); CNum (F64.of_Z 2); CNum (F64.of_Z 1)]
        [CNum (F64.div (F64.of_Z 7) (F64.of_Z 2)); CNum (F64.div (F64.of_Z 5) (F64.of_Z 2));
         CNum (F64.of_Z 4)] "two-sided"
      = Ok (stat, F64.lit_0_5) ∧
      h_estatistica row = @np_round Demo.library stat 3.
Proof.
  destruct (@hypothesis_tests Demo.library Demo.sample) as [rows|e] eqn:Hrows;
    [|vm_compute in Hrows; discriminate].
  destruct (@hypothesis_tests_two_tools_only Demo.library Demo.sample rows Hrows)
    as (tools & Ht & Hsame & Hall).
  apply Forall2_cons_inv_l in Hall as (row & rows' & Hrow & _ & ->).
  exists (row :: rows'), tools, row.
  split; [reflexivity|]. split; [exact Ht|]. split; [exact Hsame|].
  split; [reflexivity|].
  destruct Hrow as (vals & ps & pt & Hv & Hps & Hpt & Hn & _ & Hmw).
  injection Ht as <-. injection Hv as <-.
  vm_compute in Hps. injection Hps as <-.
  vm_compute in Hpt. injection Hpt as <-.
  vm_compute in Hn.
  destruct (Hmw Hn) as (stat & pval & Hstat & Hround & _).
  exists stat. split; [|exact Hround].
  vm_compute in Hstat. injection Hstat as <- <-. vm_compute. reflexivity.
Defined.

(** C1, witness: the sample table yields one row per metric. *)
Lemma hypothesis_tests_selects_by_normality_witness :
  ∃ rows, @hypothesis_tests Demo.library Demo.sample = Ok rows ∧ length rows = 3%nat.
Proof.
  destruct (@hypothesis_tests Demo.library Demo.sample) as [rows|e] eqn:Hrows;
    [|vm_compute in Hrows; discriminate].
  exists rows. split; [done|].
  pose proof (@hypothesis_tests_selects_by_normality Demo.library _ _ Hrows) as Hsel.
  apply Forall2_length in Hsel. by rewrite <- Hsel.
Defined.

(** ** Signs of binary64 results *)

Lemma binary_round_aux_signbit (s : bool) (m e : Z) (l : location) :
  F64.signbit (binary_round_aux F64.prec F64.emax s m e l) = false ∨
  F64.signbit (binary_round_aux F64.prec F64.emax s m e l) = s.
Proof.
  unfold binary_round_aux.
  destruct (shr_fexp _ _ _ _ _) as [mrs' e'].
  destruct (shr_fexp _ _ _ _ _) as [mrs'' e''].
  destruct (shr_m mrs''); simpl; auto.
  destruct (_ <=? _)%Z; simpl; auto.
Qed.

Lemma binary_round_aux_positive (m e : Z) (l : location) :
  F64.signbit (binary_round_aux F64.prec F64.emax false m e l) = false.
Proof. by destruct (binary_round_aux_signbit false m e l). Qed.

Lemma signbit_abs (x : float) : F64.signbit (F64.abs x) = false.
Proof. by destruct x. Qed.

Lemma signbit_div (x y : float) :
  F64.signbit x = false → F64.signbit y = false → F64.signbit (F64.div x y) = false.
Proof.
  destruct x as [sx|sx| |sx mx ex], y as [sy|sy| |sy my ey]; simpl;
    try done; try (by intros -> ->).
  intros -> ->. unfold F64.div, SFdiv.
  destruct (SFdiv_core_binary _ _ _ _ _ _) as [[mz ez] lz].
  apply binary_round_aux_positive.
Qed.

Lemma signbit_mul (x y : float) :
  F64.signbit x = false → F64.signbit y = false → F64.signbit (F64.mul x y) = false.
Proof.
  destruct x as [sx|sx| |sx mx ex], y as [sy|sy| |sy my ey]; simpl;
    try done; try (by intros -> ->).
  intros -> ->. apply binary_round_aux_positive.
Qed.

Lemma signbit_mul_self (x : float) : F64.signbit (F64.mul x x) = false.
Proof.
  destruct x as [s|s| |s m e]; simpl; try done; try by destruct s.
  replace (xorb s s) with false by (by destruct s).
  apply binary_round_aux_positive.
Qed.

Lemma signbit_binary_round (m : positive) (e : Z) :
  F64.signbit (binary_round F64.prec F64.emax false m e) = false.
Proof.
  unfold binary_round. destruct (shl_align _ _ _) as [mz ez].
  apply binary_round_aux_positive.
Qed.

Lemma signbit_binary_normalize (z e : Z) :
  (0 ≤ z)%Z → F64.signbit (binary_normalize F64.prec F64.emax z e false) = false.
Proof.
  destruct z as [|p|p]; simpl; [done| |lia]. intros _. apply signbit_binary_round.
Qed.

Lemma signbit_of_Z (z : Z) : (0 ≤ z)%Z → F64.signbit (F64.of_Z z) = false.
Proof. apply signbit_binary_normalize. Qed.

Lemma signbit_add (x y : float) :
  F64.signbit x = false → F64.signbit y = false → F64.signbit (F64.add x y) = false.
Proof.
  destruct x as [sx|sx| |sx mx ex], y as [sy|sy| |sy my ey]; simpl;
    try done; try (by intros -> ->).
  intros -> ->. unfold F64.add, SFadd. simpl. apply signbit_binary_round.
Qed.

Lemma signbit_sqrt (x : float) :
  F64.signbit x = false → F64.signbit (F64.sqrt x) = false.
Proof.
  destruct x as [s|s| |s m e]; simpl; try done; try (by intros ->).
  intros ->. unfold F64.sqrt, SFsqrt.
  destruct (SFsqrt_core_binary _ _ _ _) as [[mz ez] lz].
  apply binary_round_aux_positive.
Qed.

Lemma signbit_not_negative (x : float) :
  F64.signbit x = false → F64.is_nan x = true ∨ F64.leb F64.zero x = true.
Proof. destruct x as [s|s| |s m e]; simpl; intros Hs; subst; auto. Qed.

Lemma math_sqrt_signbit (x y : float) :
  F64.signbit x = false → math_sqrt x = Ok y → F64.signbit y = false.
Proof.
  unfold math_sqrt. intros Hx. destruct (F64.ltb x F64.zero); [discriminate|].
  intros [= <-]. by apply signbit_sqrt.
Qed.

(** ** The effect size *)

Section EffectSize.
Context `{Library}.

Lemma welch_effect_signbit (grp_smart grp_trad : Series) (effect : float) :
  (∀ s v, Series_var s 1 = Ok v → F64.signbit v = false) →
  welch_effect grp_smart grp_trad = Ok effect → F64.signbit effect = false.
Proof.
  intros Hvar He. unfold welch_effect in He.
  inv_bind He. inv_bind He. inv_bind He. inv_bind He. inv_bind He.
  injection He as <-.
  apply signbit_div; [apply signbit_abs|].
  eapply math_sqrt_signbit; [|eassumption].
  apply signbit_div; [apply signbit_add; eauto | by apply signbit_of_Z].
Qed.

Lemma mw_effect_signbit (grp_smart grp_trad : Series) (pval : float) :
  (∀ x, F64.signbit x = false → F64.signbit (py_pow x F64.lit_0_5) = false) →
  F64.signbit (mw_effect grp_smart grp_trad pval) = false.
Proof.
  intros Hpow. unfold mw_effect.
  apply signbit_div; [apply signbit_abs|].
  apply Hpow, signbit_of_Z. lia.
Qed.

(** C10 (as amended).  Provided the library's sample variance, square
    root by [** 0.5] and rounding return no negative-signed value from
    non-negative input, "Efeito" is never negative in any row: it is NaN
    or at least zero. *)
Theorem effect_size_never_negative (df : DataFrame) (rows : list hyp_row) :
  (∀ s v, Series_var s 1 = Ok v → F64.signbit v = false) →
  (∀ x, F64.signbit x = false → F64.signbit (py_pow x F64.lit_0_5) = false) →
  (∀ x, F64.signbit x = false → F64.signbit (np_round x 3) = false) →
  hypothesis_tests df = Ok rows →
  Forall (λ row, F64.is_nan (h_efeito row) = true ∨
                 F64.leb F64.zero (h_efeito row) = true) rows.
Proof.
  intros Hvar Hpow Hround Hm. unfold hypothesis_tests in Hm.
  apply mapM_Ok_inv in Hm.
  induction Hm as [|[metric label] row mls rows Hrow _ IH]; constructor; [|exact IH].
  apply signbit_not_negative.
  unfold hypothesis_row in Hrow.
  inv_bind Hrow. inv_bind Hrow. inv_bind Hrow. inv_bind Hrow.
  destruct (is_normal _ _).
  - inv_bind Hrow. destruct v3 as [stat pval]. inv_bind Hrow.
    injection Hrow as <-. simpl.
    eapply Hround, welch_effect_signbit; eassumption.
  - inv_bind Hrow. destruct v3 as [stat pval].
    injection Hrow as <-. simpl.
    by apply Hround, mw_effect_signbit.
Qed.
End EffectSize.

(** the demonstration routines keep the sign bit off *)

Lemma demo_fsum_signbit (xs : list float) (acc : float) :
  F64.signbit acc = false → Forall (λ x, F64.signbit x = false) xs →
  F64.signbit (foldl F64.add acc xs) = false.
Proof.
  intros Hacc Hxs. revert acc Hacc.
  induction Hxs as [|x xs Hx _ IH]; intros acc Hacc; simpl; [done|].
  apply IH. by apply signbit_add.
Qed.

Lemma demo_var_signbit (s : Series) (v : float) :
  Demo.var s 1 = Ok v → F64.signbit v = false.
Proof.
  unfold Demo.var. intros Hv. inv_bind Hv. injection Hv as <-.
  unfold Demo.var_of. destruct (_ <=? _)%Z eqn:Hlen; [done|].
  apply Z.leb_gt in Hlen.
  apply signbit_div; [|apply signbit_of_Z; lia].
  apply demo_fsum_signbit; [done|].
  apply Forall_forall. intros x Hx. apply list_elem_of_In, in_map_iff in Hx as (y & <- & _).
  apply signbit_mul_self.
Qed.

Lemma demo_pow_signbit (x : float) :
  F64.signbit x = false → F64.signbit (Demo.pow x F64.lit_0_5) = false.
Proof.
  intros Hx. unfold Demo.pow. destruct (decide _); [by apply signbit_sqrt | done].
Qed.

Lemma demo_rint_signbit (x : float) :
  F64.signbit x = false → F64.signbit (Demo.rint x) = false.
Proof.
  destruct x as [s|s| |s m e]; simpl; try done.
  intros ->. destruct (0 <=? e)%Z eqn:He; [done|]. apply Z.leb_gt in He.
  assert (0 ≤ Z.pos m / 2 ^ (- e))%Z
    by (apply Z.div_pos; [lia | apply Z.pow_pos_nonneg; lia]).
  repeat match goal with |- context [if ?b then _ else _] => destruct b end;
    apply signbit_binary_normalize; lia.
Qed.

Lemma demo_round_signbit (x : float) :
  F64.signbit x = false → F64.signbit (Demo.round x 3) = false.
Proof.
  intros Hx. unfold Demo.round.
  apply signbit_div; [|by apply signbit_of_Z].
  apply demo_rint_signbit, signbit_mul; [done | by apply signbit_of_Z].
Qed.

(** C10, witness: the demonstration routines meet the three provisos and
    the sample table has its three rows. *)
Lemma effect_size_never_negative_witness :
  ∃ rows, @hypothesis_tests Demo.library Demo.sample = Ok rows ∧
          Forall (λ row, F64.is_nan (h_efeito row) = true ∨
                         F64.leb F64.zero (h_efeito row) = true) rows.
Proof.
  destruct (@hypothesis_tests Demo.library Demo.sample) as [rows|e] eqn:Hrows;
    [|vm_compute in Hrows; discriminate].
  exists rows. split; [done|].
  exact (@effect_size_never_negative Demo.library Demo.sample rows
           demo_var_signbit demo_pow_signbit demo_round_signbit Hrows).
Defined.

(** C10, counterexample: every participant of the sample has one design
    problem, so both groups pass the normality gate with zero variance and
    equal means, and Welch's effect size is 0/0: "Efeito" is NaN, which is
    not at least zero. *)
Lemma effect_size_can_be_nan :
  ¬ (∀ (L : Library) (df : DataFrame) (rows : list hyp_row),
        (∀ s v, Series_var s 1 = Ok v → F64.signbit v = false) →
        (∀ x, F64.signbit x = false → F64.signbit (py_pow x F64.lit_0_5) = false) →
        (∀ x, F64.signbit x = false → F64.signbit (np_round x 3) = false) →
        hypothesis_tests df = Ok rows →
        Forall (λ row, F64.leb F64.zero (h_efeito row) = true) rows).
Proof.
  intros Hany.
  destruct (@hypothesis_tests Demo.library Demo.sample) as [rows|e] eqn:Hrows;
    [|vm_compute in Hrows; discriminate].
  pose proof (Hany Demo.library Demo.sample rows
                demo_var_signbit demo_pow_signbit demo_round_signbit Hrows) as Hall.
  vm_compute in Hrows. injection Hrows as <-.
  apply Forall_cons in Hall as [_ Hall].
  apply Forall_cons in Hall as [_ Hall].
  apply Forall_cons in Hall as [Hdesign _].
  vm_compute in Hdesign. discriminate.
Qed.

(** ** The left join *)

Lemma key_matches_none (k : cell) (kr : list cell) (j0 : nat) :
  merge_key k ∉ map merge_key kr → key_matches k kr j0 = [].
Proof.
  revert j0. induction kr as [|k' kr IH]; intros j0 Hk; simpl; [done|].
  simpl in Hk. apply not_elem_of_cons in Hk as [Hne Hk].
  rewrite decide_False by done. auto.
Qed.

Lemma key_matches_unique (k : cell) (kr : list cell) (j0 : nat) :
  NoDup (map merge_key kr) → (length (key_matches k kr j0) ≤ 1)%nat.
Proof.
  revert j0. induction kr as [|k' kr IH]; intros j0 Hnd; simpl; [lia|].
  simpl in Hnd. apply NoDup_cons in Hnd as [Hk' Hnd].
  destruct (decide (merge_key k' = merge_key k)) as [Heq|Hne]; [|auto].
  rewrite Heq in Hk'. rewrite (key_matches_none _ _ _ Hk'). simpl. lia.
Qed.

Lemma key_matches_elem (k k' : cell) (kr : list cell) (j0 j : nat) :
  kr !! j = Some k' → merge_key k' = merge_key k →
  (j0 + j)%nat ∈ key_matches k kr j0.
Proof.
  revert j0 j. induction kr as [|k0 kr IH]; intros j0 [|j] Hj Hk; simpl in *; try done.
  - injection Hj as ->. rewrite decide_True by done. rewrite Nat.add_0_r. by left.
  - replace (j0 + S j)%nat with (S j0 + j)%nat by lia.
    destruct (decide _); [right|]; by apply IH.
Qed.

Lemma key_matches_the_one (k k' : cell) (kr : list cell) (j : nat) :
  NoDup (map merge_key kr) → kr !! j = Some k' → merge_key k' = merge_key k →
  key_matches k kr 0 = [j].
Proof.
  intros Hnd Hj Hk.
  pose proof (key_matches_unique k kr 0 Hnd) as Hlen.
  pose proof (key_matches_elem k k' kr 0 j Hj Hk) as Hin. simpl in Hin.
  destruct (key_matches k kr 0) as [|j1 [|j2 js]]; simpl in Hlen; [|  |lia].
  - by apply elem_of_nil in Hin.
  - by apply list_elem_of_singleton in Hin as ->.
Qed.

(** with unique right keys, the join keeps the left rows as they are:
    row [i] of the result is left row [i], with its one match if any *)
Lemma join_index_unique (kl kr : list cell) (i0 : nat) :
  NoDup (map merge_key kr) →
  join_index kl kr i0
  = imap (λ i k, ((i0 + i)%nat, head (key_matches k kr 0))) kl.
Proof.
  intros Hnd. revert i0. induction kl as [|k kl IH]; intros i0; simpl; [done|].
  rewrite IH, Nat.add_0_r.
  assert (Htl : imap (λ i k0, ((S i0 + i)%nat, head (key_matches k0 kr 0))) kl
                = imap ((λ i k0, ((i0 + i)%nat, head (key_matches k0 kr 0))) ∘ S) kl).
  { apply imap_ext. intros i x _. simpl. f_equal. lia. }
  rewrite Htl.
  pose proof (key_matches_unique k kr 0 Hnd) as Hlen.
  destruct (key_matches k kr 0) as [|j [|j' js]]; simpl in *; [done | done | lia].
Qed.

Lemma take_left_id (kl kr : list cell) (s : Series) :
  NoDup (map merge_key kr) → length s = length kl →
  take_left (join_index kl kr 0) s = s.
Proof.
  intros Hnd Hlen. rewrite join_index_unique by done. unfold take_left.
  apply list_eq. intros i. rewrite lookup_map, list_lookup_imap. simpl.
  destruct (kl !! i) as [k|] eqn:Hk; simpl.
  - destruct (lookup_lt_is_Some_2 s i) as [c Hc];
      [rewrite Hlen; by eapply lookup_lt_Some|].
    by rewrite Hc.
  - symmetry. apply lookup_ge_None. rewrite Hlen. by apply lookup_ge_None.
Qed.

Lemma take_right_unmatched (kl kr : list cell) (s : Series) (i : nat) (k : cell) :
  NoDup (map merge_key kr) → kl !! i = Some k →
  merge_key k ∉ map merge_key kr →
  take_right (join_index kl kr 0) s !! i = Some CNull.
Proof.
  intros Hnd Hk Hun. rewrite join_index_unique by done. unfold take_right.
  rewrite lookup_map, list_lookup_imap, Hk. simpl.
  by rewrite (key_matches_none _ _ _ Hun).
Qed.

Lemma take_right_matched (kl kr : list cell) (s : Series) (i j : nat) (k k' : cell) :
  NoDup (map merge_key kr) → kl !! i = Some k →
  kr !! j = Some k' → merge_key k' = merge_key k →
  take_right (join_index kl kr 0) s !! i = Some (default CNull (s !! j)).
Proof.
  intros Hnd Hi Hj Hk. unfold take_right. rewrite join_index_unique by done.
  rewrite lookup_map, list_lookup_imap, Hi. simpl.
  by rewrite (key_matches_the_one k k' kr j).
Qed.

Lemma join_index_length (kl kr : list cell) :
  NoDup (map merge_key kr) → length (join_index kl kr 0) = length kl.
Proof. intros Hnd. by rewrite join_index_unique, length_imap. Qed.

Lemma map_id_on {A} (f : A → A) (l : list A) :
  (∀ x, x ∈ l → f x = x) → map f l = l.
Proof.
  induction l as [|x l IH]; intros Hf; simpl; [done|].
  rewrite Hf by (by left). f_equal. apply IH. intros y Hy. apply Hf. by right.
Qed.

Lemma Forall2_map_self {A B} (R : A → B → Prop) (f : A → B) (l : list A) :
  (∀ x, x ∈ l → R x (f x)) → Forall2 R l (map f l).
Proof.
  induction l as [|x l IH]; intros Hf; simpl; constructor.
  - apply Hf. by left.
  - apply IH. intros y Hy. apply Hf. by right.
Qed.

Lemma Forall2_right_all {A B} (R : A → B → Prop) (Q : B → Prop) (l : list A) (k : list B) :
  Forall2 R l k → (∀ x y, R x y → Q y) → Forall Q k.
Proof. intros HR HQ. induction HR; constructor; eauto. Qed.

(** labels that the suffixing leaves alone cannot clash *)
Lemma suffix_clash_same (l : list string) : suffix_clash l l = false.
Proof.
  unfold suffix_clash. generalize (duplicated [] l). intros bs.
  induction bs as [|b bs IH]; simpl; [done|]. rewrite IH. by destruct b.
Qed.

(** with unique right keys the left columns go through the join value by
    value; only a label that the right table has too is changed *)
Lemma merge_left_values_part (left right : DataFrame) (kl kr : Series) :
  Forall (λ p, length p.2 = length kl) left →
  NoDup (map merge_key kr) →
  map (λ p, (suffixed "ID" right "_x" p.1, take_left (join_index kl kr 0) p.2)) left
  = map (λ p, (suffixed "ID" right "_x" p.1, p.2)) left.
Proof.
  intros Hwf Hnd.
  induction Hwf as [|[n s] df Hs _ IH]; simpl; [done|]. f_equal; [|exact IH].
  f_equal. by apply take_left_id.
Qed.

Lemma suffixed_disjoint (on sfx : string) (other : DataFrame) (l : list string) :
  (∀ n, n ∈ l → n ∈ labels other → n = on) → map (suffixed on other sfx) l = l.
Proof.
  intros Hnames. apply map_id_on. intros n Hn. unfold suffixed.
  destruct (decide _) as [[Hne Hin]|]; [|done]. destruct Hne. auto.
Qed.

Lemma merge_left_metrics_part (left right : DataFrame) (kl kr : Series) :
  Forall (λ p, length p.2 = length kl) left →
  NoDup (map merge_key kr) →
  (∀ n, n ∈ labels left → n ∈ labels right → n = "ID") →
  map (λ p, (suffixed "ID" right "_x" p.1, take_left (join_index kl kr 0) p.2)) left
  = left.
Proof.
  intros Hwf Hnd Hnames. rewrite merge_left_values_part by done.
  apply map_id_on. intros [n s] Hin. simpl. f_equal.
  unfold suffixed. destruct (decide _) as [[Hne Hr]|]; [|done].
  destruct Hne. apply Hnames; [|done]. apply elem_of_map. by exists (n, s).
Qed.

(** what a join that is made has read, and what it returns *)
Lemma merge_left_Ok_inv (left right df : DataFrame) (on : string) :
  merge_left left right on = Ok df →
  ∃ kl kr,
    getcol left on = Ok kl ∧ getcol right on = Ok kr ∧
    keys_comparable kl kr = true ∧
    df = (map (λ p, (suffixed on right "_x" p.1, take_left (join_index kl kr 0) p.2)) left ++
          map (λ p, (suffixed on left "_y" p.1, take_right (join_index kl kr 0) p.2))
              (filter (λ p, p.1 ≠ on) right))%list.
Proof.
  unfold merge_left. intros Hm. inv_bind Hm. rename v into kl.
  inv_bind Hm. rename v into kr. exists kl, kr. do 2 (split; [done|]).
  destruct (keys_comparable kl kr); simpl in Hm; [|discriminate].
  destruct (_ || _); [discriminate|]. by injection Hm as <-.
Qed.

(** tables that share no label but the key are joined whenever their
    keys can be compared *)
Lemma merge_left_disjoint (left right : DataFrame) (on : string) (kl kr : Series) :
  getcol left on = Ok kl → getcol right on = Ok kr →
  keys_comparable kl kr = true →
  (∀ n, n ∈ labels left → n ∈ labels right → n = on) →
  merge_left left right on
  = Ok (map (λ p, (suffixed on right "_x" p.1, take_left (join_index kl kr 0) p.2)) left ++
        map (λ p, (suffixed on left "_y" p.1, take_right (join_index kl kr 0) p.2))
            (filter (λ p, p.1 ≠ on) right))%list.
Proof.
  intros Hkl Hkr Hcmp Hnames. unfold merge_left. rewrite Hkl, Hkr. simpl.
  rewrite Hcmp. simpl.
  rewrite (suffixed_disjoint on "_x" right (labels left)) by done.
  rewrite (suffixed_disjoint on "_y" left (labels (filter (λ p, p.1 ≠ on) right))).
  - by rewrite !suffix_clash_same.
  - intros n Hn Hl. apply elem_of_map in Hn as (p & -> & Hp).
    apply list_elem_of_filter in Hp as [_ Hp]. apply Hnames; [done|].
    apply elem_of_map. by exists p.
Qed.

(** C4.  When no identifier occurs twice in the profile table, the left
    join on "ID" is made whenever the two identifier columns can be
    compared and no profile column is labelled like a metrics column; and
    the table of a join that is made is the metrics columns, with their
    values as they were (and their labels too unless the profile table
    has a column of the same label), followed by one column for each
    profile column other than "ID".  Each such column has one entry for
    each metrics row: null where the profile table does not have the
    row's identifier, and otherwise the value of the profile row that
    has it. *)
Theorem merge_left_unique_profile (df_metrics df_profile : DataFrame) (kl kr : Series) :
  columns_named df_metrics "ID" = [("ID", kl)] →
  columns_named df_profile "ID" = [("ID", kr)] →
  Forall (λ p, length p.2 = length kl) df_metrics →
  NoDup (map merge_key kr) →
  (keys_comparable kl kr = true →
   (∀ n, n ∈ labels df_metrics → n ∈ labels df_profile → n = "ID") →
   ∃ df, merge_left df_metrics df_profile "ID" = Ok df) ∧
  (∀ df, merge_left df_metrics df_profile "ID" = Ok df →
   ∃ prof,
     df = (map (λ p, (suffixed "ID" df_profile "_x" p.1, p.2)) df_metrics ++ prof)%list ∧
     ((∀ n, n ∈ labels df_metrics → n ∈ labels df_profile → n = "ID") →
      df = (df_metrics ++ prof)%list) ∧
     Forall2 (λ p q,
        q.1 = suffixed "ID" df_metrics "_y" p.1 ∧
        length q.2 = length kl ∧
        ∀ i k, kl !! i = Some k →
          (merge_key k ∉ map merge_key kr → q.2 !! i = Some CNull) ∧
          (∀ j k', kr !! j = Some k' → merge_key k' = merge_key k →
                   q.2 !! i = Some (default CNull (p.2 !! j))))
       (filter (λ p, p.1 ≠ "ID") df_profile) prof).
Proof.
  intros Hkl%columns_named_one_getcol Hkr%columns_named_one_getcol Hwf Hnd. split.
  - intros Hcmp Hnames. eexists. by apply (merge_left_disjoint _ _ _ kl kr).
  - intros df Hm.
    apply merge_left_Ok_inv in Hm as (kl' & kr' & Hkl' & Hkr' & _ & ->).
    rewrite Hkl in Hkl'. injection Hkl' as <-.
    rewrite Hkr in Hkr'. injection Hkr' as <-.
    eexists. split; [by rewrite merge_left_values_part|].
    split; [intros Hnames; by rewrite merge_left_metrics_part|].
    apply Forall2_map_self. intros [n s] _. simpl.
    split; [done|]. split.
    + unfold take_right. by rewrite length_map, join_index_length.
    + intros i k Hi. split.
      * intros Hun. by eapply take_right_unmatched.
      * intros j k' Hj Hk. by eapply take_right_matched.
Qed.

(** C4, witness: the demonstration tables are joined; the result is the
    metrics table followed by four profile columns, and participant P6,
    who has no profile, is null in each of them. *)
Lemma merge_left_unique_profile_witness :
  ∃ df prof, merge_left Demo.metrics Demo.profile "ID" = Ok df ∧
             df = (Demo.metrics ++ prof)%list ∧ length prof = 4%nat ∧
             Forall (λ q, q.2 !! 5%nat = Some CNull) prof.
Proof.
  destruct (merge_left_unique_profile Demo.metrics Demo.profile
    [CStr "P1"; CStr "P2"; CStr "P3"; CStr "P4"; CStr "P5"; CStr "P6"]
    [CStr "P1"; CStr "P2"; CStr "P3"; CStr "P4"; CStr "P5"]
    eq_refl eq_refl) as [Hmade Hshape].
  - vm_compute. repeat constructor.
  - refine (bool_decide_unpack _ _). by vm_compute.
  - assert (Hnames : ∀ n, n ∈ labels Demo.metrics → n ∈ labels Demo.profile → n = "ID").
    { intros n Hl Hr.
      destruct (decide (n = "ID")) as [|Hne]; [done|]. exfalso.
      assert (Hboth : n ∈ filter (λ n, n ∈ labels Demo.profile) (labels Demo.metrics))
        by (by apply list_elem_of_filter).
      vm_compute in Hboth. apply list_elem_of_singleton in Hboth. done. }
    destruct (Hmade eq_refl Hnames) as [df Hdf].
    destruct (Hshape df Hdf) as (prof & _ & Hdf' & Hprof).
    exists df, prof. split; [exact Hdf|]. split; [by apply Hdf'|].
    split; [by rewrite <- (Forall2_length _ _ _ Hprof)|].
    apply (Forall2_right_all _ _ _ _ Hprof). intros p q (_ & _ & Hq).
    apply (Hq 5%nat (CStr "P6") eq_refl).
    refine (bool_decide_unpack _ _). by vm_compute.
Defined.

(** ** [descriptive_stats] *)

Lemma group_keys_NoDup (s : Series) : NoDup (group_keys s).
Proof.
  unfold group_keys. rewrite merge_sort_Permutation. apply NoDup_remove_dups.
Qed.

Lemma elem_of_group_keys (s : Series) (k : cell) :
  k ∈ group_keys s ↔ ∃ c, c ∈ s ∧ isna c = false ∧ merge_key c = k.
Proof.
  unfold group_keys.
  rewrite merge_sort_Permutation, elem_of_remove_dups, elem_of_map.
  split.
  - intros (c & -> & Hc). apply list_elem_of_filter in Hc as [Hna Hc]. eauto.
  - intros (c & Hc & Hna & <-). exists c. split; [done|].
    by apply list_elem_of_filter.
Qed.

Lemma merge_key_str (c : cell) (t : string) : merge_key c = CStr t ↔ c = CStr t.
Proof. destruct c as [[]|]; simpl; split; congruence. Qed.

(** the group of a string key is the rows holding that string *)
Lemma group_mask_str (t : string) (s : Series) : group_mask (CStr t) s = eq_str t s.
Proof.
  unfold group_mask, eq_str. apply map_ext. intros c.
  apply bool_decide_ext, merge_key_str.
Qed.

Lemma filter_length_ext {A} (P Q : A → Prop) `{∀ x, Decision (P x)} `{∀ x, Decision (Q x)}
    (l : list A) :
  Forall (λ x, P x ↔ Q x) l → length (filter P l) = length (filter Q l).
Proof.
  induction 1 as [|x l Hx _ IH]; [done|].
  rewrite !filter_cons. destruct (decide (P x)), (decide (Q x)); simpl; tauto || lia.
Qed.

Lemma filter_map_snd_length {A B} (Q : B → Prop) `{∀ x, Decision (Q x)}
    (l : list (A * B)) :
  length (filter Q (map snd l)) = length (filter (λ p, Q p.2) l).
Proof.
  induction l as [|[x y] l IH]; [done|]. simpl.
  rewrite !filter_cons. simpl. destruct (decide (Q y)); simpl; by rewrite IH.
Qed.

(** the size of one group, read on the paired rows *)
Lemma group_count (k : cell) (tools tempo : Series) :
  count_nonnull (select (group_mask k tools) tempo)
  = length (filter (λ p, merge_key p.1 = k)
                   (filter (λ p, isna p.2 = false) (zip tools tempo))).
Proof.
  unfold count_nonnull, group_mask.
  rewrite (select_mask_zip (λ c, merge_key c = k)), filter_map_snd_length.
  rewrite !list_filter_filter. apply filter_length_ext, Forall_forall.
  intros p _. tauto.
Qed.

(** the values of one group, read on the paired rows *)
Lemma group_values (k : cell) (tools col : Series) :
  select (group_mask k tools) col
  = map snd (filter (λ p, merge_key p.1 = k) (zip tools col)).
Proof. unfold group_mask. by rewrite (select_mask_zip (λ c, merge_key c = k)). Qed.

Section DescriptiveStatsSpec.
Context `{Library}.

Lemma describe_group_Ok (tools tempo erros design : Series) (k : cell) (row : desc_row) :
  describe_group tools tempo erros design k = Ok row →
  d_ferramenta row = k ∧
  d_n row = count_nonnull (select (group_mask k tools) tempo) ∧
  (∃ x, agg_mean (select (group_mask k tools) tempo) = Ok x ∧
        d_tempo_medio row = np_round x 3) ∧
  (∃ x, agg_std (select (group_mask k tools) tempo) = Ok x ∧
        d_tempo_dp row = np_round x 3) ∧
  (∃ x, agg_mean (select (group_mask k tools) erros) = Ok x ∧
        d_erros_medio row = np_round x 3) ∧
  (∃ x, agg_std (select (group_mask k tools) erros) = Ok x ∧
        d_erros_dp row = np_round x 3) ∧
  (∃ x, agg_mean (select (group_mask k tools) design) = Ok x ∧
        d_design_medio row = np_round x 3) ∧
  (∃ x, agg_std (select (group_mask k tools) design) = Ok x ∧
        d_design_dp row = np_round x 3).
Proof.
  unfold describe_group. intros Hrow.
  do 6 inv_bind Hrow. injection Hrow as <-. simpl.
  repeat split; eauto.
Qed.

(** C6.  The table has one row for each distinct non-null value of
    "ferramenta" and no other.  In the row of a tool, [n] is the number
    of rows of the table that have this tool and a non-null "tempo_h",
    and the six statistics are the library's group mean and group
    standard deviation of the "tempo_h", "erros" and "design" values of
    the rows that have this tool, each rounded to three decimals. *)
Theorem descriptive_stats_rows (df : DataFrame) (rows : list desc_row) :
  descriptive_stats df = Ok rows →
  ∃ tools tempo erros design,
    getcol df "ferramenta" = Ok tools ∧ getcol df "tempo_h" = Ok tempo ∧
    getcol df "erros" = Ok erros ∧ getcol df "design" = Ok design ∧
    NoDup (map d_ferramenta rows) ∧
    (∀ k, k ∈ map d_ferramenta rows ↔
          ∃ c, c ∈ tools ∧ isna c = false ∧ merge_key c = k) ∧
    Forall (λ row,
      let of_tool (col : Series) : Series :=
        map snd (filter (λ p, merge_key p.1 = d_ferramenta row) (zip tools col)) in
      d_n row = length (filter (λ p, merge_key p.1 = d_ferramenta row ∧ isna p.2 = false)
                               (zip tools tempo)) ∧
      (∃ x, agg_mean (of_tool tempo) = Ok x ∧ d_tempo_medio row = np_round x 3) ∧
      (∃ x, agg_std (of_tool tempo) = Ok x ∧ d_tempo_dp row = np_round x 3) ∧
      (∃ x, agg_mean (of_tool erros) = Ok x ∧ d_erros_medio row = np_round x 3) ∧
      (∃ x, agg_std (of_tool erros) = Ok x ∧ d_erros_dp row = np_round x 3) ∧
      (∃ x, agg_mean (of_tool design) = Ok x ∧ d_design_medio row = np_round x 3) ∧
      (∃ x, agg_std (of_tool design) = Ok x ∧ d_design_dp row = np_round x 3)) rows.
Proof.
  unfold descriptive_stats. intros Hrows.
  inv_bind Hrows. rename v into tools. inv_bind Hrows. rename v into tempo.
  inv_bind Hrows. rename v into erros. inv_bind Hrows. rename v into design.
  exists tools, tempo, erros, design. do 4 (split; [done|]).
  apply mapM_Ok_inv in Hrows.
  assert (Hkeys : map d_ferramenta rows = group_keys tools).
  { induction Hrows as [|k row ks rows Hrow _ IH]; simpl; [done|].
    apply describe_group_Ok in Hrow as [-> _]. by rewrite IH. }
  rewrite Hkeys. split; [apply group_keys_NoDup|].
  split; [apply elem_of_group_keys|].
  clear Hkeys. induction Hrows as [|k row ks rows Hrow _ IH]; constructor; [|exact IH].
  apply describe_group_Ok in Hrow as (-> & Hn & Hstats). cbv zeta.
  rewrite <- !group_values. split; [|exact Hstats].
  by rewrite Hn, group_count, list_filter_filter.
Qed.
End DescriptiveStatsSpec.

(** C6, witness: in the sample table three rows have the tool
    "SmartRefactor", with the times 1.5, 2 and 1; the table has a row
    for this tool, with [n] three and a mean time of 1.5. *)
Lemma descriptive_stats_rows_witness :
  ∃ rows, @descriptive_stats Demo.library Demo.sample = Ok rows ∧
          CStr "SmartRefactor" ∈ map d_ferramenta rows ∧
          Forall (λ row, d_ferramenta row = CStr "SmartRefactor" →
                         d_n row = 3%nat ∧
                         d_tempo_medio row = F64.div (F64.of_Z 3) (F64.of_Z 2)) rows.
Proof.
  destruct (@descriptive_stats Demo.library Demo.sample) as [rows|e] eqn:Hrows;
    [|vm_compute in Hrows; discriminate].
  exists rows. split; [done|].
  pose proof (@descriptive_stats_rows Demo.library Demo.sample rows Hrows) as Hthm.
  destruct Hthm as (tools & tempo & erros & design & Ht & Hv & _ & _ & _ & Hkeys & Hall).
  injection Ht as <-. injection Hv as <-. split.
  - apply Hkeys. exists (CStr "SmartRefactor"). split; [by left | done].
  - eapply Forall_impl; [exact Hall|]. cbv zeta.
    intros row (Hn & (x & Hx & Hmean) & _) Hk. rewrite Hk in Hn, Hx.
    split; [exact Hn|].
    vm_compute in Hx. injection Hx as <-. rewrite Hmean. by vm_compute.
Defined.

(** ** [map_ordinal] *)

Lemma ordinal_dict_from_absent (order : list string) (idx : nat)
    (d : gmap string nat) (cat : string) :
  cat ∉ order → ordinal_dict_from order idx d !! cat = d !! cat.
Proof.
  revert idx d. induction order as [|c order IH]; intros idx d Hc; simpl; [done|].
  apply not_elem_of_cons in Hc as [Hne Hc].
  rewrite IH by done. by rewrite lookup_insert_ne.
Qed.

Lemma ordinal_dict_from_present (order : list string) (idx : nat)
    (d : gmap string nat) (cat : string) (i : nat) :
  NoDup order → order !! i = Some cat →
  ordinal_dict_from order idx d !! cat = Some (idx + i)%nat.
Proof.
  intros Hnd. revert idx d i.
  induction Hnd as [|c order Hc Hnd IH]; intros idx d i Hi; [done|].
  destruct i as [|i]; simpl in *.
  - injection Hi as ->. rewrite ordinal_dict_from_absent by done.
    by rewrite lookup_insert_eq, Nat.add_0_r.
  - rewrite (IH _ _ i) by done. f_equal. lia.
Qed.

Lemma map_cell_unknown (order : list string) (c : cell) :
  known_category order c = false → map_cell (ordinal_dict order) c = CNull.
Proof.
  destruct c as [x|cat]; simpl; [done|]. intros Hc.
  apply bool_decide_eq_false in Hc.
  unfold ordinal_dict. by rewrite ordinal_dict_from_absent.
Qed.

(** the float a cell is mapped to *)
Lemma map_cell_num (d : gmap string nat) (c : cell) :
  ∃ x, map_cell d c = CNum x.
Proof. destruct c as [x|cat]; simpl; [by eexists|]. destruct (d !! cat); by eexists. Qed.

Lemma as_floats_nums (xs : list float) : as_floats (map CNum xs) = Ok xs.
Proof.
  unfold as_floats. induction xs as [|x xs IH]; simpl; [done|].
  by rewrite IH.
Qed.

Lemma select_map {A B} (f : A → B) (mask : list bool) (l : list A) :
  select mask (map f l) = map f (select mask l).
Proof.
  revert l. induction mask as [|b mask IH]; intros [|x l]; simpl; try done.
  destruct b; simpl; by rewrite IH.
Qed.

Lemma select_length_eq {A B} (mask : list bool) (l : list A) (k : list B) :
  length l = length k → length (select mask l) = length (select mask k).
Proof.
  revert l k. induction mask as [|b mask IH]; intros [|x l] [|y k]; simpl; try done.
  intros [= Hlen]. destruct b; simpl; auto.
Qed.

Lemma omit_nan_unknown (f : cell → float) (known : cell → bool)
    (series : Series) (ys : list float) :
  (∀ c, known c = false → F64.is_nan (f c) = true) →
  omit_nan (zip (map f series) ys)
  = omit_nan (zip (map f (select (map known series) series))
                  (select (map known series) ys)).
Proof.
  intros Hf. revert ys.
  induction series as [|c series IH]; intros [|y ys]; simpl; try done.
  - by rewrite zip_with_nil_r.
  - unfold omit_nan in *. destruct (known c) eqn:Hc; simpl.
    + rewrite !filter_cons. simpl. rewrite IH. done.
    + rewrite filter_cons_False; [apply IH|].
      simpl. rewrite (Hf c Hc). intros [? _]. discriminate.
Qed.

Section MapOrdinalSpec.
Context `{Library}.

(** C8 (as amended).  For an order without repeated categories,
    [map_ordinal] sends the category at position [i] to the float [i] and
    every other value, a missing one included, to NaN; and the rows it
    sends to NaN do not reach the Spearman correlation: removing them
    from both columns beforehand gives the same call. *)
Theorem map_ordinal_values (series : Series) (order : list string) :
  NoDup order →
  (∀ j cat i, series !! j = Some (CStr cat) → order !! i = Some cat →
      map_ordinal series order !! j = Some (CNum (F64.of_Z (Z.of_nat i)))) ∧
  (∀ j c, series !! j = Some c → known_category order c = false →
      map_ordinal series order !! j = Some CNull) ∧
  (∀ ys : list float, length ys = length series →
      let rows := map (known_category order) series in
      spearmanr_omit (map_ordinal series order) (map CNum ys)
      = spearmanr_omit (map_ordinal (select rows series) order)
                       (select rows (map CNum ys))).
Proof.
  intros Hnd. split; [|split].
  - intros j cat i Hj Hi. unfold map_ordinal. rewrite lookup_map, Hj. simpl.
    unfold ordinal_dict. by rewrite (ordinal_dict_from_present _ _ _ _ i).
  - intros j c Hj Hc. unfold map_ordinal. rewrite lookup_map, Hj. simpl.
    by rewrite map_cell_unknown.
  - intros ys Hlen rows. unfold spearmanr_omit, map_ordinal.
    set (d := ordinal_dict order).
    set (f := λ c, match map_cell d c with CNum x => x | CStr _ => F64.nan end).
    assert (Hf : ∀ l, map (map_cell d) l = map CNum (map f l)).
    { intros l. rewrite map_map. apply map_ext. intros c. unfold f.
      by destruct (map_cell_num d c) as [x ->]. }
    rewrite !Hf, select_map, !as_floats_nums. simpl.
    rewrite !bool_decide_true.
    + f_equal. apply omit_nan_unknown. intros c Hc. unfold f, d.
      by rewrite map_cell_unknown.
    + rewrite length_map. by apply select_length_eq.
    + by rewrite length_map.
Qed.
End MapOrdinalSpec.

(** C8, witness: the experience order has no repeated category; the
    sample's first participant is in bracket 0, its last in none. *)
Lemma map_ordinal_values_witness :
  NoDup exp_order ∧
  ∃ s, getcol Demo.sample "experiencia" = Ok s ∧
       map_ordinal s exp_order !! 0%nat = Some (CNum (F64.of_Z 0)) ∧
       map_ordinal s exp_order !! 6%nat = Some CNull.
Proof.
  assert (Hnd : NoDup exp_order) by (refine (bool_decide_unpack _ _); by vm_compute).
  split; [exact Hnd|]. eexists. split; [reflexivity|].
  pose proof (@map_ordinal_values Demo.library
    [CStr "0-1 anos"; CStr "3-5 anos"; CStr "3-5 anos"; CStr "6+ anos";
     CStr "1-2 anos"; CNull; CStr "10 anos"] exp_order Hnd) as Hthm.
  destruct Hthm as (Hpos & Hnan & _). split.
  - exact (Hpos 0%nat "0-1 anos" 0%nat eq_refl eq_refl).
  - exact (Hnan 6%nat (CStr "10 anos") eq_refl eq_refl).
Defined.

(** C8, counterexample: with the category "a" at positions 0 and 1, the
    dict keeps the later index, and "a" is mapped to 1.0. *)
Lemma map_ordinal_repeated_category :
  ¬ (∀ (series : Series) (order : list string) (j : nat) (cat : string) (i : nat),
        series !! j = Some (CStr cat) → order !! i = Some cat →
        map_ordinal series order !! j = Some (CNum (F64.of_Z (Z.of_nat i)))).
Proof.
  intros Hany.
  pose proof (Hany [CStr "a"] ["a"; "a"] 0%nat "a" 0%nat eq_refl eq_refl) as Hzero.
  vm_compute in Hzero. discriminate.
Qed.

(** ** [profile_influence] *)

Lemma frame_wf_getcol (df : DataFrame) (n : nat) (c : string) (s : Series) :
  Forall (λ p, length p.2 = n) df → getcol df c = Ok s → length s = n.
Proof.
  intros Hwf Hs. apply getcol_Some_elem in Hs.
  by apply (proj1 (Forall_forall _ _) Hwf (c, s)).
Qed.

Lemma frame_wf_setcol (df : DataFrame) (n : nat) (c : string) (s : Series) :
  Forall (λ p, length p.2 = n) df → length s = n →
  Forall (λ p, length p.2 = n) (setcol df c s).
Proof.
  intros Hwf Hs. induction Hwf as [|[m s0] df Hs0 Hdf IH]; simpl.
  - by constructor.
  - destruct (decide (m = c)); constructor; auto.
Qed.

Lemma select_eq_str_empty (lvl : string) (e : Series) (s : Series) :
  length s = length e →
  length (select (eq_str lvl e) s) = 0%nat ↔ CStr lvl ∉ e.
Proof.
  revert s. induction e as [|c e IH]; intros [|x s] Hlen; simpl in *; try done.
  - split; [intros _; apply not_elem_of_nil | done].
  - injection Hlen as Hlen. rewrite not_elem_of_cons.
    destruct (bool_decide (c = CStr lvl)) eqn:Hc; simpl.
    + apply bool_decide_eq_true in Hc as ->. split; [done | by intros [? _]].
    + apply bool_decide_eq_false in Hc. rewrite IH by done.
      split; [intros Hne; split; [congruence | done] | by intros [_ Hne]].
Qed.

Lemma frame_empty_level (df : DataFrame) (e : Series) (lvl : string) :
  frame_wf df → getcol df "experiencia" = Ok e →
  frame_empty (filter_frame (eq_str lvl e) df) = negb (bool_decide (CStr lvl ∈ e)).
Proof.
  intros [n Hwf] He. destruct df as [|[m s] df]; [done|].
  unfold frame_empty. simpl.
  assert (Hlen : length s = length e).
  { rewrite (frame_wf_getcol _ n _ _ Hwf He). by apply Forall_cons in Hwf as [? _]. }
  apply eq_true_iff_eq. rewrite negb_true_iff, bool_decide_eq_true, bool_decide_eq_false.
  by apply select_eq_str_empty.
Qed.

Lemma level_groups_spec (df : DataFrame) (e vals : Series) (metric : string)
    (levels : list string) :
  frame_wf df → getcol df "experiencia" = Ok e → getcol df metric = Ok vals →
  level_groups df metric levels
  = Ok (map (λ lvl, dropna (select (eq_str lvl e) vals)) (present_levels e levels)).
Proof.
  intros Hwf He Hv. unfold present_levels.
  induction levels as [|lvl levels IH]; simpl; [done|].
  rewrite He. simpl. rewrite (frame_empty_level df e lvl Hwf He).
  rewrite filter_cons. destruct (decide (CStr lvl ∈ e)) as [Hin|Hin].
  - rewrite bool_decide_true by done. simpl.
    rewrite getcol_filter_frame, Hv. simpl. by rewrite IH.
  - rewrite bool_decide_false by done. simpl. exact IH.
Qed.

Section ProfileInfluenceSpec.
Context `{Library}.

Lemma add_ordinal_Ok (df df' : DataFrame) (src dst : string) (order : list string) :
  add_ordinal df src dst order = Ok df' →
  ∃ s, getcol df src = Ok s ∧ df' = setcol df dst (map_ordinal s order).
Proof. unfold add_ordinal. intros Hd. inv_bind Hd. injection Hd as <-. eauto. Qed.

Lemma add_ordinal_wf (df df' : DataFrame) (src dst : string) (order : list string) :
  frame_wf df → add_ordinal df src dst order = Ok df' → frame_wf df'.
Proof.
  intros [n Hwf] Hd. apply add_ordinal_Ok in Hd as (s & Hs & ->).
  exists n. apply frame_wf_setcol; [done|].
  unfold map_ordinal. rewrite length_map. by eapply frame_wf_getcol.
Qed.

(** the guard: with fewer than two levels present the test is not called
    at all and no row is made; otherwise its result makes one row *)
Lemma kruskal_rows_for_spec (df : DataFrame) (e vals : Series) (ml : string * string) :
  frame_wf df → getcol df "experiencia" = Ok e → getcol df ml.1 = Ok vals →
  kruskal_rows_for df ml
  = if bool_decide (2 ≤ length (present_levels e exp_order))%nat then
      '(stat, pval) ← kruskal (map (λ lvl, dropna (select (eq_str lvl e) vals))
                                   (present_levels e exp_order));
      mret [{| i_variavel := "Experiência (categorias)"; i_metrica := ml.2;
               i_teste := "Kruskal‑Wallis";
               i_coeficiente := np_round stat 3; i_p_valor := np_round pval 5 |}]
    else Ok [].
Proof.
  intros Hwf He Hv. unfold kruskal_rows_for.
  rewrite (level_groups_spec df e vals) by done. simpl.
  by rewrite length_map.
Qed.

Lemma spearman_row_Ok (df : DataFrame) (ol ml : string * string) (row : inf_row) :
  spearman_row df ol ml = Ok row →
  row_key row = (ol.2, ml.2, "Spearman ρ") ∧ ∃ y, getcol df ml.1 = Ok y.
Proof.
  unfold spearman_row. intros Hrow. inv_bind Hrow. inv_bind Hrow. inv_bind Hrow.
  destruct v1 as [coef pval]. injection Hrow as <-. eauto.
Qed.

(** C9.  A run of [profile_influence] that returns has made the six
    Spearman rows, in order, followed by one Kruskal-Wallis row for each
    of the two metrics when at least two of the four experience levels
    have a row in the table, and by nothing when fewer have: in that case
    [kruskal] is not called and the step returns the empty list. *)
Theorem profile_influence_rows (df df' : DataFrame) (rows : list inf_row) :
  frame_wf df →
  profile_influence df = Ok (df', rows) →
  ∃ e sp kw,
    getcol df "experiencia" = Ok e ∧ rows = (sp ++ kw)%list ∧
    map row_key sp =
      [("Experiência", "Erros", "Spearman ρ");
       ("Experiência", "Design", "Spearman ρ");
       ("Conhecimento Refatoração", "Erros", "Spearman ρ");
       ("Conhecimento Refatoração", "Design", "Spearman ρ");
       ("Conhecimento Java", "Erros", "Spearman ρ");
       ("Conhecimento Java", "Design", "Spearman ρ")] ∧
    ((2 ≤ length (present_levels e exp_order))%nat →
       map row_key kw =
         [("Experiência (categorias)", "Erros", "Kruskal‑Wallis");
          ("Experiência (categorias)", "Design", "Kruskal‑Wallis")]) ∧
    ((length (present_levels e exp_order) < 2)%nat →
       kw = [] ∧ ∀ ml, ml ∈ influence_metrics → kruskal_rows_for df' ml = Ok []).
Proof.
  intros Hwf Hp. unfold profile_influence in Hp.
  inv_bind Hp. rename v into df1, E into E1.
  inv_bind Hp. rename v into df2, E into E2.
  inv_bind Hp. rename v into df3, E into E3.
  inv_bind Hp. rename v into sp, E into Esp.
  inv_bind Hp. rename v into kws, E into Ekw.
  injection Hp as <- <-.
  assert (Hwf3 : frame_wf df3) by eauto using add_ordinal_wf.
  apply add_ordinal_Ok in E1 as (e & He & ->).
  apply add_ordinal_Ok in E2 as (k1 & _ & ->).
  apply add_ordinal_Ok in E3 as (k2 & _ & ->).
  set (df3 := setcol _ "kn_java_num" _) in *.
  assert (He3 : getcol df3 "experiencia" = Ok e).
  { unfold df3. by rewrite !getcol_setcol_ne by done. }
  (* the six Spearman rows *)
  unfold spearman_rows in Esp. apply mapM_Ok_inv in Esp. simpl in Esp.
  repeat match goal with
  | Hf : Forall2 _ (_ :: _) _ |- _ =>
      let Hk := fresh "Hk" in
      let Hy := fresh "Hy" in
      apply Forall2_cons_inv_l in Hf as (? & ? & Hk & Hf & ->);
      apply spearman_row_Ok in Hk as [Hk Hy]; simpl in Hk, Hy
  end.
  apply Forall2_nil_inv_l in Esp as ->.
  assert (∃ erros, getcol df3 "erros" = Ok erros) as [erros Herros] by done.
  assert (∃ design, getcol df3 "design" = Ok design) as [design Hdesign] by done.
  (* the guarded Kruskal-Wallis rows *)
  apply mapM_Ok_inv in Ekw. unfold influence_metrics in Ekw.
  apply Forall2_cons_inv_l in Ekw as (kw1 & kws' & Hkw1 & Ekw & ->).
  apply Forall2_cons_inv_l in Ekw as (kw2 & kws'' & Hkw2 & Ekw & ->).
  apply Forall2_nil_inv_l in Ekw as ->.
  rewrite (kruskal_rows_for_spec df3 e erros) in Hkw1 by done.
  rewrite (kruskal_rows_for_spec df3 e design) in Hkw2 by done.
  exists e. eexists [_; _; _; _; _; _], (concat [kw1; kw2]).
  split; [done|]. split; [reflexivity|]. split.
  { simpl. repeat match goal with Hk : row_key _ = _ |- _ => rewrite Hk; clear Hk end.
    done. }
  split.
  - intros Hge. rewrite bool_decide_true in Hkw1, Hkw2 by done.
    inv_bind Hkw1. destruct v as [s1 p1]. injection Hkw1 as <-.
    inv_bind Hkw2. destruct v as [s2 p2]. injection Hkw2 as <-. done.
  - intros Hlt. rewrite bool_decide_false in Hkw1, Hkw2 by lia.
    injection Hkw1 as <-. injection Hkw2 as <-. split; [done|].
    intros ml Hml. unfold influence_metrics in Hml.
    apply elem_of_cons in Hml as [-> | Hml];
      [|apply list_elem_of_singleton in Hml as ->].
    + rewrite (kruskal_rows_for_spec df3 e erros) by done.
      by rewrite bool_decide_false by lia.
    + rewrite (kruskal_rows_for_spec df3 e design) by done.
      by rewrite bool_decide_false by lia.
Qed.
End ProfileInfluenceSpec.

(** C9, witness: all seven participants of the table are in the first
    bracket; a call of [kruskal] on one group would raise, and the run
    returns the six Spearman rows. *)
Lemma profile_influence_rows_witness :
  frame_wf Demo.novices ∧
  @kruskal Demo.library [[CNum F64.zero]]
    = Raise (ValueError "Need at least two groups in stats.kruskal()") ∧
  ∃ df' rows, @profile_influence Demo.library Demo.novices = Ok (df', rows) ∧
              length rows = 6%nat.
Proof.
  assert (Hwf : frame_wf Demo.novices) by (exists 7%nat; repeat constructor).
  split; [exact Hwf|]. split; [reflexivity|].
  destruct (@profile_influence Demo.library Demo.novices) as [[df' rows]|e] eqn:Hp;
    [|vm_compute in Hp; discriminate].
  exists df', rows. split; [done|].
  pose proof (@profile_influence_rows Demo.library _ _ _ Hwf Hp) as Hthm.
  destruct Hthm as (e & sp & kw & He & -> & Hsp & _ & Hlt).
  assert (e = replicate 7 (CStr "0-1 anos")) as ->
    by (vm_compute in He; injection He as <-; reflexivity).
  destruct Hlt as [-> _]; [vm_compute; lia|].
  rewrite app_nil_r. apply (f_equal length) in Hsp. by rewrite length_map in Hsp.
Defined.

(** ** The run *)





Lemma writes_snoc_print (log : list event) (msg : string) :
  writes (log ++ [Printed msg]) = writes log.
Proof. unfold writes. by rewrite omap_app, app_nil_r. Qed.

Lemma writes_snoc_wrote (log : list event) (p : path) :
  writes (log ++ [Wrote p]) = (writes log ++ [p])%list.
Proof. unfold writes. by rewrite omap_app. Qed.


Lemma emits_mkdir_p (p : path) : emits (mkdir_p p) [].
Proof.
  intros w r w'. unfold mkdir_p. simpl.
  destruct (decide _); intros [= <- <-]; simpl.
  - split; [done|]. exists []. by rewrite app_nil_r.
  - split; [set_solver|]. exists []. by rewrite app_nil_r.
Qed.



Section MainSpec.
Context `{Library}.




End MainSpec.


(** * Further properties of the pipeline *)

(** ** Loading *)

Section LoadingFacts.
Context `{Library}.

(** X1.  [load_metrics] succeeds exactly when the raw table, after
    renaming, has each of the labels "tempo_h", "loc_mod", "erros" and
    "design" on one column and no more, has "ID" and "ferramenta", and
    every cell of "tempo_h" and "loc_mod" is accepted by [float]; nothing
    is asked of the cells of "erros" and "design". *)
Theorem load_metrics_frame_succeeds_iff (df_raw : DataFrame) :
  (∃ df, load_metrics_frame df_raw = Ok df) ↔
  ∃ t l e d,
    columns_named (rename_columns metrics_rename df_raw) "tempo_h" = [("tempo_h", t)] ∧
    columns_named (rename_columns metrics_rename df_raw) "loc_mod" = [("loc_mod", l)] ∧
    columns_named (rename_columns metrics_rename df_raw) "erros" = [("erros", e)] ∧
    columns_named (rename_columns metrics_rename df_raw) "design" = [("design", d)] ∧
    "ID" ∈ labels (rename_columns metrics_rename df_raw) ∧
    "ferramenta" ∈ labels (rename_columns metrics_rename df_raw) ∧
    Forall (λ c, is_Some (parse_decimal_comma c)) t ∧
    Forall (λ c, is_Some (parse_decimal_comma c)) l.
Proof.
  split.
  - intros [df Hload]. apply load_metrics_frame_spec in Hload
      as (t & t' & l & l' & e & d & Ht & Hl & He & Hd & Hid & Hf & Ht' & Hl' & _).
    exists t, l, e, d. do 6 (split; [done|]).
    split; [by apply astype_float_strict_parsed in Ht' as [? _]
           | by apply astype_float_strict_parsed in Hl' as [? _]].
  - intros (t & l & e & d & Ht & Hl & He & Hd & Hid & Hf & Hpt & Hpl).
    destruct (astype_float_strict_total t Hpt) as [t' Ht'].
    destruct (astype_float_strict_total l Hpl) as [l' Hl'].
    eexists. apply load_metrics_frame_spec. exists t, t', l, l', e, d.
    do 8 (split; [done|]). reflexivity.
Qed.

(** X2.  A raw table that lacks one of the six columns makes the load
    raise; when it is the time column that is missing, the exception is
    the [KeyError] of "tempo_h", the first column read. *)
Theorem load_metrics_frame_missing_column (df_raw : DataFrame) (col : string) :
  col ∈ ["ID"; "tempo_h"; "loc_mod"; "erros"; "design"; "ferramenta"] →
  col ∉ labels (rename_columns metrics_rename df_raw) →
  (∃ e, load_metrics_frame df_raw = Raise e) ∧
  (col = "tempo_h" → load_metrics_frame df_raw = Raise (KeyError "tempo_h")).
Proof.
  intros Hcol Habs. split.
  - destruct (load_metrics_frame df_raw) as [df|e] eqn:Hload; [|by eexists].
    destruct (load_metrics_frame_Ok _ _ _ eq_refl Hload)
      as (id & t & t' & l & l' & e & d & f & Hid & Ht & Hl & He & Hd & Hf & _).
    destruct Habs.
    repeat (apply elem_of_cons in Hcol as [-> | Hcol]; [by eapply getcol_label|]).
    by apply elem_of_nil in Hcol.
  - intros ->. unfold load_metrics_frame, coerce_strict.
    by rewrite (getseries_missing _ _ _ Habs).
Qed.

(** X3.  A load that succeeds keeps the rows as they are: "ID" and
    "ferramenta" pass through unchanged, and "tempo_h", "erros" and
    "design" have one number, possibly NaN, for each cell of the raw
    column, never a string. *)
Theorem load_metrics_frame_numeric (df_raw df : DataFrame) :
  load_metrics_frame df_raw = Ok df →
  getcol df "ID" = getcol (rename_columns metrics_rename df_raw) "ID" ∧
  getcol df "ferramenta" = getcol (rename_columns metrics_rename df_raw) "ferramenta" ∧
  ∀ col, col ∈ ["tempo_h"; "erros"; "design"] →
    ∃ s s0, getcol df col = Ok s ∧
            getcol (rename_columns metrics_rename df_raw) col = Ok s0 ∧
            length s = length s0 ∧ Forall (λ c, is_num c = true) s.
Proof.
  intros Hload.
  destruct (load_metrics_frame_Ok _ _ _ eq_refl Hload)
    as (id & t & t' & l & l' & e & d & f & Hid & Ht & Hl & He & Hd & Hf & Ht' & Hl'
        & Gid & Gt & Ge & Gd & Gf & _).
  split; [by rewrite Hid|]. split; [by rewrite Hf|].
  assert (Hc : ∀ s0, length (to_numeric_coerce s0) = length s0 ∧
                     Forall (λ c, is_num c = true) (to_numeric_coerce s0)).
  { intros s0. unfold to_numeric_coerce. split; [apply length_map|].
    apply Forall_forall. intros c Hin. by apply elem_of_map in Hin as (c0 & -> & _). }
  intros col Hcol.
  apply elem_of_cons in Hcol as [-> | Hcol].
  { apply astype_float_strict_parsed in Ht' as (_ & Hlen & Hnum).
    by exists t', t. }
  apply elem_of_cons in Hcol as [-> | Hcol].
  { exists (to_numeric_coerce e), e. destruct (Hc e). done. }
  apply list_elem_of_singleton in Hcol as ->.
  exists (to_numeric_coerce d), d. destruct (Hc d). done.
Qed.

Lemma rename_columns_values (mapping : list (string * string)) (df : DataFrame) :
  map snd (rename_columns mapping df) = map snd df.
Proof. unfold rename_columns. rewrite map_map. by apply map_ext. Qed.

Lemma rename_label_other (mapping : list (string * string)) (n : string) :
  n ∉ map fst mapping → rename_label mapping n = n.
Proof.
  intros Hn. unfold rename_label.
  destruct (list_find _ mapping) as [[i [a b]]|] eqn:Hfind; [|done].
  apply list_find_Some in Hfind as (Hi & Ha & _). simpl in Ha. subst a.
  destruct Hn. apply elem_of_map. exists (n, b). split; [done|].
  by eapply list_elem_of_lookup_2.
Qed.

(** X4.  [load_profile] drops no column and touches no value: the
    table it returns has the columns of the file in their order, with
    the four profile labels renamed and every other label, "ID"
    included, as it was. *)
Theorem load_profile_keeps_columns (csv : string) (df : DataFrame) :
  load_profile csv = Ok df →
  ∃ df_raw,
    read_csv csv = Ok df_raw ∧
    map snd df = map snd df_raw ∧
    (∀ n s, (n, s) ∈ df_raw →
            n ∉ ["Formacao"; "Experiencia"; "Conhecimento_Refatoracao";
                 "Conhecimento_Java"] →
            (n, s) ∈ df) ∧
    (∀ s, getcol df_raw "Experiencia" = Ok s → "experiencia" ∉ labels df_raw →
          getcol df "experiencia" = Ok s).
Proof.
  unfold load_profile. intros Hload. inv_bind Hload. injection Hload as <-.
  exists v. split; [done|]. split; [apply rename_columns_values|]. split.
  - intros n s Hin Hn. unfold rename_columns. apply elem_of_map.
    exists (n, s). split; [|done]. simpl. by rewrite rename_label_other.
  - intros s Hs Hfresh. clear E. induction v as [|[n s0] df IH]; [done|].
    simpl in *. apply not_elem_of_cons in Hfresh as [Hne Hfresh].
    destruct (decide (n = "Experiencia")) as [->|Hn].
    + injection Hs as ->. done.
    + rewrite decide_False; [by apply IH|].
      unfold rename_label. simpl.
      repeat (destruct (decide _); [simpl in *; subst; done|]). simpl. congruence.
Qed.
End LoadingFacts.

(** ** The join, in general *)

(** X5.  Joining on a key that either table lacks raises the
    [KeyError] of that key. *)
Theorem merge_left_missing_key (left right : DataFrame) (on : string) :
  on ∉ labels left ∨ on ∉ labels right →
  merge_left left right on = Raise (KeyError on).
Proof.
  unfold merge_left. intros [Hl | Hr].
  - by rewrite (getcol_missing _ _ Hl).
  - destruct (getcol_Ok_or_KeyError left on) as [[kl ->] | ->]; simpl; [|done].
    by rewrite (getcol_missing _ _ Hr).
Qed.

Lemma key_matches_length (k : cell) (kr : list cell) (j0 : nat) :
  length (key_matches k kr j0)
  = length (filter (λ k', merge_key k' = merge_key k) kr).
Proof.
  revert j0. induction kr as [|k' kr IH]; intros j0; simpl; [done|].
  rewrite filter_cons. destruct (decide _); simpl; by rewrite IH.
Qed.

Lemma join_index_row_count (kl kr : list cell) (i0 : nat) :
  length (join_index kl kr i0)
  = sum_list (map (λ k, Nat.max (length (filter (λ k', merge_key k' = merge_key k) kr)) 1) kl).
Proof.
  revert i0. induction kl as [|k kl IH]; intros i0; simpl; [done|].
  rewrite length_app, IH, <- (key_matches_length k kr 0). f_equal.
  destruct (key_matches k kr 0) as [|j js]; simpl; [done|].
  rewrite length_map. lia.
Qed.

Lemma sum_list_at_least (l : list nat) :
  Forall (λ n, 1 ≤ n)%nat l → (length l ≤ sum_list l)%nat.
Proof. induction 1 as [|n l Hn _ IH]; simpl; lia. Qed.

(** X6.  Whatever the profile table holds, the left join loses no
    metrics row: every column of the result has, for each metrics row,
    as many entries as the profile table has rows with that identifier,
    and one if it has none.  A profile identifier that occurs twice
    therefore doubles the metrics rows it matches. *)
Theorem merge_left_row_count (left right df : DataFrame) (on : string) :
  merge_left left right on = Ok df →
  ∃ kl kr,
    getcol left on = Ok kl ∧ getcol right on = Ok kr ∧
    Forall (λ p, length p.2 =
      sum_list (map (λ k, Nat.max (length (filter (λ k', merge_key k' = merge_key k) kr)) 1) kl))
      df ∧
    (length kl ≤
      sum_list (map (λ k, Nat.max (length (filter (λ k', merge_key k' = merge_key k) kr)) 1) kl))%nat.
Proof.
  intros Hm. apply merge_left_Ok_inv in Hm as (kl & kr & Hkl & Hkr & _ & ->).
  exists kl, kr. split; [done|]. split; [done|]. split.
  - rewrite <- (join_index_row_count kl kr 0).
    apply Forall_app. split; apply Forall_forall; intros [n s] Hin;
      apply elem_of_map in Hin as ([n' s'] & [= -> ->] & _); simpl.
    + unfold take_left. apply length_map.
    + unfold take_right. apply length_map.
  - rewrite <- (length_map (λ k, Nat.max (length (filter (λ k', merge_key k' = merge_key k) kr)) 1) kl) at 1.
    apply sum_list_at_least, Forall_forall. intros n Hn.
    apply elem_of_map in Hn as (k & -> & _). lia.
Qed.

(** X7.  With unique profile identifiers, a metrics row whose
    identifier the profile table has gets, in every profile column, the
    value of the profile row with that identifier. *)
Theorem merge_left_matched_profile (left right df : DataFrame) (kl kr : Series)
    (i j : nat) (k k' : cell) :
  getcol left "ID" = Ok kl → getcol right "ID" = Ok kr →
  NoDup (map merge_key kr) →
  merge_left left right "ID" = Ok df →
  kl !! i = Some k → kr !! j = Some k' → merge_key k' = merge_key k →
  ∀ n s c, (n, s) ∈ right → n ≠ "ID" → s !! j = Some c →
           ∃ n' s', (n', s') ∈ drop (length left) df ∧
                    (n ∉ labels left → n' = n) ∧ s' !! i = Some c.
Proof.
  intros Hkl Hkr Hnd Hm Hi Hj Hk n s c Hin Hn Hc.
  apply merge_left_Ok_inv in Hm as (kl' & kr' & Hkl' & Hkr' & _ & ->).
  rewrite Hkl in Hkl'. injection Hkl' as <-.
  rewrite Hkr in Hkr'. injection Hkr' as <-.
  rewrite <- (length_map (λ p, (suffixed "ID" right "_x" p.1, take_left (join_index kl kr 0) p.2)) left).
  rewrite drop_app_length.
  exists (suffixed "ID" left "_y" n), (take_right (join_index kl kr 0) s).
  split; [|split].
  - apply elem_of_map. exists (n, s). split; [done|]. by apply list_elem_of_filter.
  - intros Hfresh. unfold suffixed. by rewrite decide_False by (intros [_ ?]; done).
  - rewrite (take_right_matched kl kr s i j k k') by done. by rewrite Hc.
Qed.

(** ** Counting by key *)

Lemma count_cons_key {A K} `{EqDecision K} (f : A → K) (k : K) (ks : list K) (l : list A) :
  k ∉ ks →
  (length (filter (λ x, f x = k) l) + length (filter (λ x, f x ∈ ks) l))%nat
  = length (filter (λ x, f x ∈ k :: ks) l).
Proof.
  intros Hk. induction l as [|x l IH]; [done|].
  rewrite !filter_cons.
  destruct (decide (f x = k)) as [Hx|Hx], (decide (f x ∈ ks)) as [Hin|Hin];
    destruct (decide (f x ∈ k :: ks)) as [Hc|Hc]; simpl; try lia; exfalso;
    first [ by (apply Hk; rewrite <- Hx)
          | by (apply Hc, elem_of_cons; left)
          | by (apply Hc, elem_of_cons; right)
          | by (apply elem_of_cons in Hc as [?|?]) ].
Qed.

Lemma sum_count_by_key {A K} `{EqDecision K} (f : A → K) (ks : list K) (l : list A) :
  NoDup ks →
  sum_list (map (λ k, length (filter (λ x, f x = k) l)) ks)
  = length (filter (λ x, f x ∈ ks) l).
Proof.
  induction 1 as [|k ks Hk _ IH]; simpl.
  - induction l as [|x l IHl]; [done|].
    rewrite filter_cons. destruct (decide _) as [Hin|]; [|done].
    by apply elem_of_nil in Hin.
  - rewrite IH. by apply count_cons_key.
Qed.

Lemma isna_merge_key (c : cell) : isna (merge_key c) = isna c.
Proof. by destruct c as [[]|]. Qed.

Lemma zip_elem_fst {A B} (a : list A) (b : list B) (p : A * B) :
  p ∈ zip a b → p.1 ∈ a.
Proof.
  revert b. induction a as [|x a IH]; intros [|y b] Hp; simpl in *;
    try by apply elem_of_nil in Hp.
  apply elem_of_cons in Hp as [-> | Hp]; [by left | right; eauto].
Qed.

Section DescriptiveStatsFacts.
Context `{Library}.

(** X8.  The groups of [descriptive_stats] count every row once: the
    values of [n] add up to the number of rows that have both a tool and
    a time, so a row with a missing tool is in no group and a row with a
    missing time is in no count. *)
Theorem descriptive_stats_counts_each_row (df : DataFrame) (rows : list desc_row)
    (tools tempo : Series) :
  getcol df "ferramenta" = Ok tools → getcol df "tempo_h" = Ok tempo →
  descriptive_stats df = Ok rows →
  sum_list (map d_n rows)
  = length (filter (λ p, isna p.1 = false ∧ isna p.2 = false) (zip tools tempo)).
Proof.
  intros Ht Hv Hrows. unfold descriptive_stats in Hrows.
  rewrite Ht, Hv in Hrows. simpl in Hrows. inv_bind Hrows. inv_bind Hrows.
  apply mapM_Ok_inv in Hrows.
  assert (Hn : map d_n rows
               = map (λ k, length (filter (λ p, merge_key p.1 = k)
                        (filter (λ p, isna p.2 = false) (zip tools tempo))))
                     (group_keys tools)).
  { induction Hrows as [|k row ks rows Hrow _ IH]; simpl; [done|].
    apply describe_group_Ok in Hrow as [_ [Hd _]].
    by rewrite Hd, group_count, IH. }
  rewrite Hn, (sum_count_by_key (λ p, merge_key p.1)) by apply group_keys_NoDup.
  rewrite list_filter_filter. apply filter_length_ext, Forall_forall.
  intros p Hp. apply zip_elem_fst in Hp.
  rewrite elem_of_group_keys. split.
  - intros [(c & Hc & Hna & Hk) Hv2]. split; [|done].
    by rewrite <- isna_merge_key, <- Hk, isna_merge_key.
  - intros [Hna Hv2]. split; [|done]. by exists p.1.
Qed.

(** X9.  Without a "ferramenta" column neither table of results is
    made: both stages raise its [KeyError].  With it but without
    "tempo_h", the hypothesis tests raise the [KeyError] of "tempo_h",
    the first metric. *)
Theorem stages_missing_column (df : DataFrame) :
  ("ferramenta" ∉ labels df →
     descriptive_stats df = Raise (KeyError "ferramenta") ∧
     hypothesis_tests df = Raise (KeyError "ferramenta")) ∧
  ("ferramenta" ∈ labels df → "tempo_h" ∉ labels df →
     hypothesis_tests df = Raise (KeyError "tempo_h")).
Proof.
  split.
  - intros Hf. unfold descriptive_stats, hypothesis_tests. simpl.
    unfold tool_group. by rewrite (getcol_missing _ _ Hf).
  - intros Hf Ht.
    destruct (getcol_Ok_or_KeyError df "ferramenta") as [[tools Htools] | Hno].
    + unfold hypothesis_tests. simpl. unfold tool_group.
      rewrite Htools. simpl.
      rewrite !getcol_filter_frame.
      by rewrite (getcol_missing df "tempo_h" Ht).
    + destruct (getcol_present _ _ Hf) as [tools Htools]. congruence.
Qed.
End DescriptiveStatsFacts.

(** ** [profile_descriptive] *)

Lemma sum_list_Permutation (l k : list nat) : l ≡ₚ k → sum_list l = sum_list k.
Proof. induction 1; simpl; lia. Qed.

Lemma filter_all {A} (P : A → Prop) `{∀ x, Decision (P x)} (l : list A) :
  Forall P l → filter P l = l.
Proof.
  induction 1 as [|x l Hx _ IH]; [done|].
  by rewrite filter_cons_True, IH.
Qed.

Lemma value_counts_sum (s : Series) :
  sum_list (map snd (value_counts s)) = count_nonnull s.
Proof.
  unfold value_counts, count_nonnull.
  set (vals := filter (λ c, isna c = false) s).
  rewrite (sum_list_Permutation _
    (map snd (map (λ k, (k, count_occ_cell vals k)) (remove_dups vals)))).
  2:{ change (map snd ?l) with (snd <$> l). apply fmap_Permutation, merge_sort_Permutation. }
  rewrite map_map. simpl. unfold count_occ_cell.
  rewrite (sum_count_by_key (λ c, c)) by apply NoDup_remove_dups.
  rewrite filter_all; [done|].
  apply Forall_forall. intros c Hc. by apply elem_of_remove_dups.
Qed.

Lemma value_counts_entry (s : Series) (t : string) :
  CStr t ∈ s →
  (CStr t, length (filter (λ c, c = CStr t) s)) ∈ value_counts s.
Proof.
  intros Hin. unfold value_counts.
  rewrite merge_sort_Permutation. apply elem_of_map.
  exists (CStr t). split.
  - f_equal. unfold count_occ_cell. rewrite list_filter_filter.
    apply filter_length_ext, Forall_forall. intros c _. split; [|tauto].
    intros ->. done.
  - apply elem_of_remove_dups, list_elem_of_filter. done.
Qed.

(** X10.  [profile_descriptive] returns the counts of the four profile
    columns, in the order formacao, experiencia, kn_ref, kn_java.  In
    each, missing answers are not counted: the counts add up to the
    number of non-null cells of the column, and a category that occurs
    is listed with the number of cells that hold it.  A profile table
    that lacks one of the four columns raises. *)
Theorem profile_descriptive_counts (df_profile : DataFrame) :
  (∀ counts, profile_descriptive df_profile = Ok counts →
     map fst counts = ["formacao"; "experiencia"; "kn_ref"; "kn_java"] ∧
     Forall (λ cv, ∃ s, getcol df_profile cv.1 = Ok s ∧
                        sum_list (map snd cv.2) = count_nonnull s ∧
                        ∀ t, CStr t ∈ s →
                             (CStr t, length (filter (λ c, c = CStr t) s)) ∈ cv.2)
            counts) ∧
  (∀ col, col ∈ profile_columns → col ∉ labels df_profile →
          ∃ e, profile_descriptive df_profile = Raise e).
Proof.
  split.
  - unfold profile_descriptive. intros counts Hc. apply mapM_Ok_inv in Hc.
    assert (Hrow : Forall2 (λ col cv, cv.1 = col ∧ ∃ s, getcol df_profile col = Ok s ∧
                                      cv.2 = value_counts s) profile_columns counts).
    { eapply Forall2_impl; [exact Hc|]. intros col cv Hcv. simpl in Hcv.
      inv_bind Hcv. injection Hcv as <-. eauto. }
    clear Hc. split.
    + change (map fst counts = profile_columns).
      remember profile_columns as cols eqn:Hcols. clear Hcols.
      induction Hrow as [|col cv cols counts [Hcol _] _ IH]; simpl; [done|].
      by rewrite Hcol, IH.
    + induction Hrow as [|col cv cols counts (Hcol & s & Hs & Hv) _ IH];
        constructor; [|exact IH].
      exists s. rewrite Hcol, Hv. split; [done|].
      split; [apply value_counts_sum | apply value_counts_entry].
  - intros col Hcol Habs. unfold profile_descriptive.
    eapply mapM_Raise; [exact Hcol|]. simpl.
    rewrite (getcol_missing _ _ Habs). by eexists.
Qed.

(** ** [map_ordinal], for any order *)

Lemma ordinal_dict_from_last (order : list string) (idx : nat)
    (d : gmap string nat) (cat : string) (i : nat) :
  order !! i = Some cat →
  (∀ i', (i < i')%nat → order !! i' ≠ Some cat) →
  ordinal_dict_from order idx d !! cat = Some (idx + i)%nat.
Proof.
  revert idx d i. induction order as [|c order IH]; intros idx d i Hi Hlast; [done|].
  destruct i as [|i]; simpl in *.
  - injection Hi as ->. rewrite ordinal_dict_from_absent.
    + by rewrite lookup_insert_eq, Nat.add_0_r.
    + intros Hin. apply list_elem_of_lookup in Hin as [i' Hi'].
      apply (Hlast (S i')); [lia | done].
  - rewrite (IH _ _ i); [f_equal; lia | done|].
    intros i' Hlt. apply (Hlast (S i')). lia.
Qed.

(** X11.  Whatever the order, [map_ordinal] returns a column of floats
    as long as its input, and a category is sent to the last position
    at which the order has it. *)
Theorem map_ordinal_last_position (series : Series) (order : list string) :
  length (map_ordinal series order) = length series ∧
  Forall (λ c, is_num c = true) (map_ordinal series order) ∧
  ∀ j cat i,
    series !! j = Some (CStr cat) → order !! i = Some cat →
    (∀ i', (i < i')%nat → order !! i' ≠ Some cat) →
    map_ordinal series order !! j = Some (CNum (F64.of_Z (Z.of_nat i))).
Proof.
  unfold map_ordinal. split; [apply length_map|]. split.
  - apply Forall_forall. intros c Hc. apply elem_of_map in Hc as (c0 & -> & _).
    by destruct (map_cell_num (ordinal_dict order) c0) as [x ->].
  - intros j cat i Hj Hi Hlast. rewrite lookup_map, Hj. simpl.
    unfold ordinal_dict. by rewrite (ordinal_dict_from_last _ _ _ _ i).
Qed.

(** ** What [profile_influence] does to the table *)

Section ProfileInfluenceFacts.
Context `{Library}.

(** X12.  [profile_influence] changes the table it is given: on return
    it has the three ordinal columns "exp_num", "kn_ref_num" and
    "kn_java_num", computed from "experiencia", "kn_ref" and "kn_java",
    every other column is as it was, and the table is still
    rectangular.  It is this table that the box plots are drawn from. *)
Theorem profile_influence_adds_columns (df df' : DataFrame) (rows : list inf_row) :
  profile_influence df = Ok (df', rows) →
  ∃ e k1 k2,
    getcol df "experiencia" = Ok e ∧ getcol df "kn_ref" = Ok k1 ∧
    getcol df "kn_java" = Ok k2 ∧
    getcol df' "exp_num" = Ok (map_ordinal e exp_order) ∧
    getcol df' "kn_ref_num" = Ok (map_ordinal k1 kn_order) ∧
    getcol df' "kn_java_num" = Ok (map_ordinal k2 kn_order) ∧
    (∀ c, c ∉ ["exp_num"; "kn_ref_num"; "kn_java_num"] → getcol df' c = getcol df c) ∧
    (frame_wf df → frame_wf df').
Proof.
  unfold profile_influence. intros Hp.
  inv_bind Hp. rename v into df1, E into E1.
  inv_bind Hp. rename v into df2, E into E2.
  inv_bind Hp. rename v into df3, E into E3.
  inv_bind Hp. inv_bind Hp. injection Hp as <- _.
  assert (Hwf : frame_wf df → frame_wf df3) by eauto using add_ordinal_wf.
  apply add_ordinal_Ok in E1 as (e & He & ->).
  apply add_ordinal_Ok in E2 as (k1 & Hk1 & ->).
  apply add_ordinal_Ok in E3 as (k2 & Hk2 & ->).
  rewrite getcol_setcol_ne in Hk1 by done.
  rewrite !getcol_setcol_ne in Hk2 by done.
  exists e, k1, k2. do 3 (split; [done|]).
  split; [by rewrite !getcol_setcol_ne, getcol_setcol_eq by done|].
  split; [by rewrite getcol_setcol_ne, getcol_setcol_eq by done|].
  split; [by rewrite getcol_setcol_eq|].
  split; [|done].
  intros c Hc. apply not_elem_of_cons in Hc as [Hc1 Hc].
  apply not_elem_of_cons in Hc as [Hc2 Hc].
  apply not_elem_of_cons in Hc as [Hc3 _].
  by rewrite !getcol_setcol_ne by done.
Qed.
End ProfileInfluenceFacts.

(** ** The samples handed to [kruskal] *)

Lemma dropna_no_null (s : Series) : Forall (λ c, isna c = false) (dropna s).
Proof.
  unfold dropna. apply Forall_forall. intros c Hc.
  by apply list_elem_of_filter in Hc as [? _].
Qed.

Lemma select_level_all_null (lvl : string) (e vals : Series) :
  (∀ i c, e !! i = Some (CStr lvl) → vals !! i = Some c → isna c = true) →
  dropna (select (eq_str lvl e) vals) = [].
Proof.
  revert vals. induction e as [|t e IH]; intros [|x vals] Hnull; simpl; try done.
  destruct (bool_decide (t = CStr lvl)) eqn:Ht.
  - apply bool_decide_eq_true in Ht as ->.
    unfold dropna. rewrite filter_cons_False.
    + apply IH. intros i c. apply (Hnull (S i) c).
    + rewrite (Hnull 0%nat x eq_refl eq_refl). done.
  - apply IH. intros i c. apply (Hnull (S i) c).
Qed.

(** X13.  The samples of the Kruskal-Wallis test hold no missing
    value, and there is one for each experience level that has a row,
    whether or not any of its rows has the metric: a level whose rows
    all lack the metric counts toward the two-group guard and is passed
    on as an empty sample. *)
Theorem level_groups_samples (df : DataFrame) (e vals : Series) (metric : string)
    (groups : list Series) :
  frame_wf df → getcol df "experiencia" = Ok e → getcol df metric = Ok vals →
  level_groups df metric exp_order = Ok groups →
  length groups = length (present_levels e exp_order) ∧
  Forall (λ g, Forall (λ c, isna c = false) g) groups ∧
  ∀ lvl, lvl ∈ exp_order → CStr lvl ∈ e →
         (∀ i c, e !! i = Some (CStr lvl) → vals !! i = Some c → isna c = true) →
         [] ∈ groups.
Proof.
  intros Hwf He Hv Hg. rewrite (level_groups_spec df e vals) in Hg by done.
  injection Hg as <-. split; [apply length_map|]. split.
  - apply Forall_forall. intros g Hin.
    apply elem_of_map in Hin as (lvl & -> & _). apply dropna_no_null.
  - intros lvl Hlvl Hin Hnull. apply elem_of_map. exists lvl.
    split; [by rewrite select_level_all_null|].
    unfold present_levels. by apply list_elem_of_filter.
Qed.

(** ** A run that stops half-way *)

Lemma run_bind {A B} (m : IO A) (f : A → IO B) (w : world) :
  run (m ≫= f) w
  = match run m w with
    | (Ok a, w') => run (f a) w'
    | (Raise e, w') => (Raise e, w')
    end.
Proof. done. Qed.

Lemma run_lift {A} (r : result A) (w : world) : run (lift r) w = (r, w).
Proof. done. Qed.

Lemma run_mkdir_p (p : path) (w : world) :
  p ∉ w_files w →
  run (mkdir_p p) w
  = (Ok (), {| w_dirs := {[p]} ∪ w_dirs w; w_files := w_files w; w_log := w_log w |}).
Proof. intros Hp. unfold mkdir_p. simpl. by rewrite decide_False. Qed.

Lemma run_write_file (p : path) (w : world) :
  removelast p ∈ w_dirs w → p ∉ w_dirs w →
  run (write_file p) w
  = (Ok (), {| w_dirs := w_dirs w; w_files := {[p]} ∪ w_files w;
               w_log := (w_log w ++ [Wrote p])%list |}).
Proof. intros Hd Hp. unfold write_file. simpl. by rewrite decide_True. Qed.

Section PartialRun.
Context `{Library}.

(** X14.  The tables are written one by one as they are computed.  When
    the descriptive statistics succeed and the hypothesis tests raise,
    the run ends with that exception, and by then it has created
    [results] and written [descriptive_stats.csv], and nothing else. *)
Theorem script_stops_after_descriptive_stats (w : world)
    (df_metrics df_profile df : DataFrame) (desc : list desc_row) (e : exn) :
  ["results"] ∉ w_files w →
  ["results"; "descriptive_stats.csv"] ∉ w_dirs w →
  load_metrics metrics_csv = Ok df_metrics →
  load_profile profile_csv = Ok df_profile →
  merge_left df_metrics df_profile "ID" = Ok df →
  descriptive_stats df = Ok desc →
  hypothesis_tests df = Raise e →
  ∃ w', run script w = (Raise e, w') ∧
        writes (w_log w') = (writes (w_log w) ++ [["results"; "descriptive_stats.csv"]])%list ∧
        w_files w' = {[ ["results"; "descriptive_stats.csv"] ]} ∪ w_files w ∧
        w_dirs w' = {[ ["results"] ]} ∪ w_dirs w.
Proof.
  intros Hfile Hdir Hm Hp Hj Hd Hh. unfold script.
  rewrite run_bind, run_mkdir_p by done. unfold main.
  rewrite run_bind, run_lift, Hm.
  rewrite run_bind, run_lift, Hp.
  rewrite run_bind, run_lift, Hj.
  rewrite run_bind, run_lift, Hd.
  rewrite run_bind, run_write_file; simpl w_dirs.
  2:{ apply elem_of_union_l, elem_of_singleton. reflexivity. }
  2:{ intros [Hin%elem_of_singleton | Hin]%elem_of_union; [discriminate | done]. }
  rewrite run_bind. unfold print at 1. cbn [run].
  rewrite run_bind, run_lift, Hh.
  eexists. split; [reflexivity|]. simpl.
  split; [|done]. by rewrite writes_snoc_print, writes_snoc_wrote.
Qed.
End PartialRun.

(** X14, witness: with two participants per tool the normality test
    refuses the samples. *)
Lemma script_stops_after_descriptive_stats_witness :
  ∃ w', run (@script Demo.short_library) Demo.world0
        = (Raise (ValueError "Data must be at least length 3."), w') ∧
        writes (w_log w') = [["results"; "descriptive_stats.csv"]].
Proof.
  destruct (@load_metrics Demo.short_library metrics_csv) as [dfm|e0] eqn:Hm;
    [|vm_compute in Hm; discriminate].
  destruct (@load_profile Demo.short_library profile_csv) as [dfp|e0] eqn:Hp;
    [|vm_compute in Hp; discriminate].
  destruct (merge_left dfm dfp "ID") as [df|e0] eqn:Hj;
    [|vm_compute in Hm, Hp; injection Hm as <-; injection Hp as <-;
      vm_compute in Hj; discriminate].
  destruct (@descriptive_stats Demo.short_library df) as [desc|e0] eqn:Hd;
    [|vm_compute in Hm, Hp; injection Hm as <-; injection Hp as <-;
      vm_compute in Hj; injection Hj as <-; vm_compute in Hd; discriminate].
  assert (Hh : @hypothesis_tests Demo.short_library df
               = Raise (ValueError "Data must be at least length 3.")).
  { vm_compute in Hm, Hp. injection Hm as <-. injection Hp as <-.
    vm_compute in Hj. injection Hj as <-. by vm_compute. }
  pose proof (@script_stops_after_descriptive_stats Demo.short_library Demo.world0
                dfm dfp df desc _ (not_elem_of_empty _) (not_elem_of_empty _)
                Hm Hp Hj Hd Hh) as Hthm.
  destruct Hthm as (w' & Hrun & Hw & _). exists w'. by split.
Defined.

(** ** The further properties on concrete tables *)

(** X2, witness: a raw table with identifiers only. *)
Lemma load_metrics_frame_missing_column_witness :
  @load_metrics_frame Demo.library [("ID", [CStr "P1"])] = Raise (KeyError "tempo_h").
Proof.
  apply (@load_metrics_frame_missing_column Demo.library [("ID", [CStr "P1"])] "tempo_h").
  - right. left.
  - refine (bool_decide_unpack _ _). by vm_compute.
  - reflexivity.
Defined.

(** X3, witness: the demonstration table; its sixth error count is the
    NaN made of "n/d". *)
Lemma load_metrics_frame_numeric_witness :
  ∃ df s, @load_metrics_frame Demo.library (Demo.loaded (Demo.tables "coleta.csv")) = Ok df ∧
          getcol df "erros" = Ok s ∧ length s = 6%nat ∧
          Forall (λ c, is_num c = true) s.
Proof.
  destruct (@load_metrics_frame Demo.library (Demo.loaded (Demo.tables "coleta.csv")))
    as [df|e] eqn:Hload; [|vm_compute in Hload; discriminate].
  pose proof (@load_metrics_frame_numeric Demo.library _ df Hload) as Hthm.
  destruct Hthm as (_ & _ & Hnum).
  destruct (Hnum "erros") as (s & s0 & Hs & Hs0 & Hlen & Hall); [right; left|].
  exists df, s. split; [done|]. split; [done|].
  split; [|done]. rewrite Hlen. vm_compute in Hs0. by injection Hs0 as <-.
Defined.

(** X4, witness: the demonstration profile table. *)
Lemma load_profile_keeps_columns_witness :
  ∃ df, @load_profile Demo.library "perfil_dos_participantes.csv" = Ok df ∧
        length (map snd df) = 5%nat.
Proof.
  destruct (@load_profile Demo.library "perfil_dos_participantes.csv") as [df|e] eqn:Hload;
    [|vm_compute in Hload; discriminate].
  exists df. split; [done|].
  pose proof (@load_profile_keeps_columns Demo.library _ df Hload) as Hthm.
  destruct Hthm as (raw & Hraw & Hvals & _).
  rewrite Hvals. vm_compute in Hraw. by injection Hraw as <-.
Defined.

(** X5, witness: a profile table without identifiers. *)
Lemma merge_left_missing_key_witness :
  merge_left Demo.metrics [("formacao", [CStr "Mestrado"])] "ID" = Raise (KeyError "ID").
Proof.
  apply merge_left_missing_key. right.
  refine (bool_decide_unpack _ _). by vm_compute.
Defined.

(** X6, witness: the profile table has "P1" twice and "P2" not at all;
    the two metrics rows become three. *)
Lemma merge_left_row_count_witness :
  ∃ df, merge_left [("ID", [CStr "P1"; CStr "P2"]); ("erros", [CNum F64.zero; CNull])]
                   [("ID", [CStr "P1"; CStr "P1"]);
                    ("formacao", [CStr "Mestrado"; CStr "Doutorado"])] "ID" = Ok df ∧
        Forall (λ p, length p.2 = 3%nat) df.
Proof.
  eexists. split; [reflexivity|].
  pose proof (merge_left_row_count
    [("ID", [CStr "P1"; CStr "P2"]); ("erros", [CNum F64.zero; CNull])]
    [("ID", [CStr "P1"; CStr "P1"]); ("formacao", [CStr "Mestrado"; CStr "Doutorado"])]
    _ "ID" eq_refl) as Hthm.
  destruct Hthm as (kl & kr & Hkl & Hkr & Hall & _).
  injection Hkl as <-. injection Hkr as <-. exact Hall.
Defined.

(** X7, witness: participant P2 of the demonstration tables holds a
    master's degree. *)
Lemma merge_left_matched_profile_witness :
  ∃ df, merge_left Demo.metrics Demo.profile "ID" = Ok df ∧
        ∃ n' s', (n', s') ∈ drop (length Demo.metrics) df ∧
                 s' !! 1%nat = Some (CStr "Mestrado").
Proof.
  destruct (merge_left Demo.metrics Demo.profile "ID") as [df|e] eqn:Hj;
    [|vm_compute in Hj; discriminate].
  exists df. split; [done|].
  pose proof (merge_left_matched_profile Demo.metrics Demo.profile df
    [CStr "P1"; CStr "P2"; CStr "P3"; CStr "P4"; CStr "P5"; CStr "P6"]
    [CStr "P1"; CStr "P2"; CStr "P3"; CStr "P4"; CStr "P5"]
    1%nat 1%nat (CStr "P2") (CStr "P2") eq_refl eq_refl) as Hthm.
  destruct (Hthm ltac:(refine (bool_decide_unpack _ _); by vm_compute)
              Hj eq_refl eq_refl eq_refl "formacao"
              [CStr "Graduação"; CStr "Mestrado"; CStr "Graduação";
               CStr "Graduação"; CStr "Doutorado"] (CStr "Mestrado"))
    as (n' & s' & Hin & _ & Hs');
    [|clear; discriminate|reflexivity|exists n', s'; split; assumption].
  vm_compute. right. left.
Defined.

(** X8, witness: the sample table has seven rows, each with a tool and a
    time. *)
Lemma descriptive_stats_counts_each_row_witness :
  ∃ rows, @descriptive_stats Demo.library Demo.sample = Ok rows ∧
          sum_list (map d_n rows) = 7%nat.
Proof.
  destruct (@descriptive_stats Demo.library Demo.sample) as [rows|e] eqn:Hrows;
    [|vm_compute in Hrows; discriminate].
  exists rows. split; [done|].
  rewrite (@descriptive_stats_counts_each_row Demo.library Demo.sample rows
             _ _ eq_refl eq_refl Hrows).
  by vm_compute.
Defined.

(** X12, witness: the sample table gains its three ordinal columns. *)
Lemma profile_influence_adds_columns_witness :
  ∃ df' rows, @profile_influence Demo.library Demo.sample = Ok (df', rows) ∧
              getcol df' "tempo_h" = getcol Demo.sample "tempo_h" ∧
              ∃ s, getcol df' "exp_num" = Ok s.
Proof.
  destruct (@profile_influence Demo.library Demo.sample) as [[df' rows]|e] eqn:Hp;
    [|vm_compute in Hp; discriminate].
  exists df', rows. split; [done|].
  pose proof (@profile_influence_adds_columns Demo.library _ _ _ Hp) as Hthm.
  destruct Hthm as (e & k1 & k2 & _ & _ & _ & Hexp & _ & _ & Hsame & _).
  split; [|by eexists]. apply Hsame.
  intros Hin. repeat (apply elem_of_cons in Hin as [Hin | Hin]; [discriminate|]).
  by apply elem_of_nil in Hin.
Defined.

(** X13, witness: the one senior participant has no error count; the
    level is present, its sample is empty. *)
Lemma level_groups_samples_witness :
  ∃ groups,
    level_groups [("experiencia", [CStr "0-1 anos"; CStr "6+ anos"]);
                  ("erros", [CNum F64.zero; CNull])] "erros" exp_order = Ok groups ∧
    length groups = 2%nat ∧ [] ∈ groups.
Proof.
  exists [[CNum F64.zero]; []]. split; [reflexivity|].
  pose proof (level_groups_samples
    [("experiencia", [CStr "0-1 anos"; CStr "6+ anos"]); ("erros", [CNum F64.zero; CNull])]
    [CStr "0-1 anos"; CStr "6+ anos"] [CNum F64.zero; CNull] "erros"
    [[CNum F64.zero]; []]) as Hthm.
  destruct Hthm as (Hlen & _ & Hempty);
    [exists 2%nat; repeat constructor | reflexivity | reflexivity | reflexivity |].
  split; [exact Hlen|].
  apply (Hempty "6+ anos").
  - do 3 right. left.
  - right. left.
  - intros [|[|i]] c Hi Hc; simpl in *; try discriminate.
    by injection Hc as <-.
Defined.

(** ** The statistics do not depend on the profile columns *)

Lemma getcol_app_l (l r : DataFrame) (c : string) :
  c ∈ labels l → getcol (l ++ r) c = getcol l c.
Proof.
  induction l as [|[n s] l IH]; simpl; [by intros ?%elem_of_nil|].
  intros Hc. destruct (decide (n = c)); [done|].
  apply elem_of_cons in Hc as [-> | Hc]; [done | auto].
Qed.

Section JoinThenStatistics.
Context `{Library}.

Lemma statistics_read_four_columns (df df' : DataFrame) :
  (∀ c, c ∈ ["ferramenta"; "tempo_h"; "erros"; "design"] → getcol df c = getcol df' c) →
  descriptive_stats df = descriptive_stats df' ∧
  hypothesis_tests df = hypothesis_tests df'.
Proof.
  intros Hcols.
  assert (Hf : getcol df "ferramenta" = getcol df' "ferramenta")
    by (apply Hcols; left).
  assert (Ht : getcol df "tempo_h" = getcol df' "tempo_h")
    by (apply Hcols; right; left).
  assert (He : getcol df "erros" = getcol df' "erros")
    by (apply Hcols; do 2 right; left).
  assert (Hd : getcol df "design" = getcol df' "design")
    by (apply Hcols; do 3 right; left).
  split.
  - unfold descriptive_stats. by rewrite Hf, Ht, He, Hd.
  - unfold hypothesis_tests, metric_labels. simpl. unfold tool_group.
    rewrite Hf. destruct (getcol df' "ferramenta") as [tools|e]; simpl; [|done].
    rewrite !getcol_filter_frame. by rewrite Ht, He, Hd.
Qed.

(** X15.  With unique profile identifiers and no profile column
    labelled like a metrics column, the descriptive statistics and the
    hypothesis tests of the joined table are those of the metrics table
    alone: the profile columns and the participants without profile
    change neither. *)
Theorem statistics_unchanged_by_join (df_metrics df_profile df : DataFrame)
    (kl kr : Series) :
  getcol df_metrics "ID" = Ok kl →
  getcol df_profile "ID" = Ok kr →
  Forall (λ p, length p.2 = length kl) df_metrics →
  NoDup (map merge_key kr) →
  (∀ n, n ∈ labels df_metrics → n ∈ labels df_profile → n = "ID") →
  (∀ c, c ∈ ["ferramenta"; "tempo_h"; "erros"; "design"] → c ∈ labels df_metrics) →
  merge_left df_metrics df_profile "ID" = Ok df →
  descriptive_stats df = descriptive_stats df_metrics ∧
  hypothesis_tests df = hypothesis_tests df_metrics.
Proof.
  intros Hkl Hkr Hwf Hnd Hnames Hcols Hj.
  apply statistics_read_four_columns. intros c Hc.
  apply merge_left_Ok_inv in Hj as (kl' & kr' & Hkl' & Hkr' & _ & ->).
  rewrite Hkl in Hkl'. injection Hkl' as <-.
  rewrite Hkr in Hkr'. injection Hkr' as <-.
  rewrite merge_left_metrics_part by done.
  apply getcol_app_l, Hcols, Hc.
Qed.
End JoinThenStatistics.

(** X15, witness: the demonstration tables. *)
Lemma statistics_unchanged_by_join_witness :
  ∃ df, merge_left Demo.metrics Demo.profile "ID" = Ok df ∧
        @hypothesis_tests Demo.library df = @hypothesis_tests Demo.library Demo.metrics.
Proof.
  destruct (merge_left Demo.metrics Demo.profile "ID") as [df|e] eqn:Hj;
    [|vm_compute in Hj; discriminate].
  exists df. split; [done|].
  refine (proj2 (@statistics_unchanged_by_join Demo.library Demo.metrics Demo.profile df
    [CStr "P1"; CStr "P2"; CStr "P3"; CStr "P4"; CStr "P5"; CStr "P6"]
    [CStr "P1"; CStr "P2"; CStr "P3"; CStr "P4"; CStr "P5"]
    eq_refl eq_refl _ _ _ _ Hj)); clear Hj df.
  - vm_compute. repeat constructor.
  - refine (bool_decide_unpack _ _). by vm_compute.
  - intros n Hl Hr.
    destruct (decide (n = "ID")) as [|Hne]; [done|]. exfalso.
    assert (Hboth : n ∈ filter (λ n, n ∈ labels Demo.profile) (labels Demo.metrics))
      by (by apply list_elem_of_filter).
    vm_compute in Hboth. apply list_elem_of_singleton in Hboth. done.
  - intros c Hc. refine (bool_decide_unpack _ _).
    repeat (apply elem_of_cons in Hc as [-> | Hc]; [by vm_compute|]).
    by apply elem_of_nil in Hc.
Defined.
